(** * vediq: the astrological calculation core, embedded and checked

    A shallow embedding of the calculation classes of the repository
    ([AstronomicalCalculator], [AstrologyCalculator], [TransitCalculator],
    [DashaCalculator], [HouseCalculator]) and the properties its specification
    states about them.

    Conventions of the embedding.
    - A JavaScript [number] is an exact rational or [NaN] (what arithmetic on
      [undefined] gives).  Rounding of IEEE doubles, the infinities and the
      negative zero are outside the model; every concrete input used below is
      chosen far from a rounding boundary.
    - [a % b] is the truncating remainder of JavaScript, not the floored one.
    - An object literal used as a table is an association list in insertion
      order; a missing key gives [None] ([undefined]).
    - A [Date] is the record of what its getters return. *)

From Stdlib Require Import ZArith QArith Qround Qabs Lqa Lia List String Bool.
Import ListNotations.

Local Open Scope Q_scope.

(** ** JavaScript numbers *)

Module JsNumber.

Inductive number : Type :=
| Num (q : Q)
| NaN.

Definition lift1 (f : Q -> Q) (a : number) : number :=
  match a with
  | Num x => Num (f x)
  | NaN => NaN
  end.

Definition lift2 (f : Q -> Q -> Q) (a b : number) : number :=
  match a, b with
  | Num x, Num y => Num (f x y)
  | _, _ => NaN
  end.

(** [Z.quot] rounds toward zero, as the quotient behind [%] does. *)
Definition Qtrunc (q : Q) : Z := Z.quot (Qnum q) (Zpos (Qden q)).

Definition Qrem (x y : Q) : Q := x - y * inject_Z (Qtrunc (x / y)).

Definition Qsign (x : Q) : Q :=
  match Qcompare x 0 with
  | Lt => -(1)
  | Eq => 0
  | Gt => 1
  end.

Definition add : number -> number -> number := lift2 Qplus.
Definition sub : number -> number -> number := lift2 Qminus.
Definition mul : number -> number -> number := lift2 Qmult.

(** No modelled function divides by a zero constant; the quotient by zero
    (an infinity in JavaScript, or [NaN] for [0/0]) is sent to [NaN]. *)
Definition div (a b : number) : number :=
  match a, b with
  | Num x, Num y => if Qeq_bool y 0 then NaN else Num (x / y)
  | _, _ => NaN
  end.

(** [x % 0] is [NaN] in JavaScript as well. *)
Definition rem (a b : number) : number :=
  match a, b with
  | Num x, Num y => if Qeq_bool y 0 then NaN else Num (Qrem x y)
  | _, _ => NaN
  end.

Definition neg : number -> number := lift1 Qopp.

(** Comparisons with [NaN] are false. *)
Definition le (a b : number) : bool :=
  match a, b with
  | Num x, Num y => Qle_bool x y
  | _, _ => false
  end.

Definition lt (a b : number) : bool :=
  match a, b with
  | Num x, Num y => negb (Qle_bool y x)
  | _, _ => false
  end.

Definition gt (a b : number) : bool := lt b a.

(** [===] on two numbers. *)
Definition strict_eq (a b : number) : bool :=
  match a, b with
  | Num x, Num y => Qeq_bool x y
  | _, _ => false
  end.

Definition is_nan (a : number) : bool :=
  match a with
  | NaN => true
  | Num _ => false
  end.

Definition of_Z (z : Z) : number := Num (inject_Z z).

(** A table lookup that may be [undefined], used as an operand. *)
Definition of_undefined (o : option number) : number :=
  match o with
  | Some a => a
  | None => NaN
  end.

(** Two numbers denote the same value. *)
Definition num_eq (a b : number) : Prop :=
  match a, b with
  | Num x, Num y => x == y
  | NaN, NaN => True
  | _, _ => False
  end.

(** [a] is the integer [k]. *)
Definition is_int (a : number) (k : Z) : Prop := num_eq a (of_Z k).

End JsNumber.

Import JsNumber.

Declare Scope js_scope.
Delimit Scope js_scope with js.
Bind Scope js_scope with number.
Infix "+" := add : js_scope.
Infix "-" := sub : js_scope.
Infix "*" := mul : js_scope.
Infix "/" := div : js_scope.
Infix "%%" := rem (at level 40, left associativity) : js_scope.
Infix "<=?" := le : js_scope.
Infix "<?" := lt : js_scope.
Infix "===" := strict_eq (at level 70, no associativity) : js_scope.
Infix "=n=" := num_eq (at level 70, no associativity).

(** Decimal literals of the source, as exact fractions. *)
Coercion Num : Q >-> number.

(** ** The [Math] object, as far as the calculators use it *)

Module Math.

Definition floor : number -> number := lift1 (fun x => inject_Z (Qfloor x)).
Definition abs : number -> number := lift1 Qabs.
(** [Math.round] rounds a half toward plus infinity. *)
Definition round : number -> number :=
  lift1 (fun x => inject_Z (Qfloor (x + (1 # 2)))).
Definition sign : number -> number := lift1 Qsign.
Definition min (a b : number) : number :=
  match a, b with
  | Num x, Num y => if Qle_bool x y then Num x else Num y
  | _, _ => NaN
  end.

End Math.

(** ** Objects and arrays *)

Module Js.

(** [o[k]] for an object literal [o], kept in insertion order. *)
Fixpoint get {A : Type} (k : string) (o : list (string * A)) : option A :=
  match o with
  | [] => None
  | (k', v) :: rest => if String.eqb k k' then Some v else get k rest
  end.

(** [o[k]] when the key itself may be [undefined]. *)
Definition get_opt {A : Type} (k : option string) (o : list (string * A))
  : option A :=
  match k with
  | Some s => get s o
  | None => None
  end.

(** [arr[i]] for a number [i]: [undefined] unless [i] is an integer that is
    an index of the array. *)
Definition array_get {A : Type} (arr : list A) (i : number) : option A :=
  match i with
  | Num q =>
      if Qeq_bool q (inject_Z (Qfloor q)) && (0 <=? Qfloor q)%Z
      then nth_error arr (Z.to_nat (Qfloor q))
      else None
  | NaN => None
  end.

Fixpoint index_from (x : string) (arr : list string) (i : Z) : Z :=
  match arr with
  | [] => (-1)%Z
  | y :: rest => if String.eqb x y then i else index_from x rest (i + 1)%Z
  end.

(** [arr.indexOf(x)], [-1] when absent (an [undefined] never occurs in the
    arrays of strings of this code). *)
Definition indexOf (arr : list string) (x : option string) : number :=
  match x with
  | Some s => of_Z (index_from s arr 0)
  | None => of_Z (-1)
  end.

(** [arr[i] = v] on an array with holes: out of range the array grows. *)
Fixpoint array_set {A : Type} (arr : list (option A)) (i : nat) (v : A)
  : list (option A) :=
  match i, arr with
  | O, [] => [Some v]
  | O, _ :: rest => Some v :: rest
  | S j, [] => None :: array_set [] j v
  | S j, x :: rest => x :: array_set rest j v
  end.

(** A [Date], through its getters: the time value in milliseconds and the
    local calendar fields. *)
Record Date : Type := mkDate {
  getTime : Z;
  getFullYear : Z;
  getMonth : Z;
  getDate : Z;
  getHours : Z;
  getMinutes : Z;
  getSeconds : Z
}.

End Js.

(** ** src/types/astrology.ts *)

Module Astrology.

Record PlanetaryPosition : Type := mkPlanetaryPosition {
  longitude : number;
  latitude : number;
  speed : number;
  planet : string;
  house : number;
  sign : number;
  nakshatra : number;
  nakshatraPada : number;
  degree : number;
  minutes : number;
  isRetrograde : bool
}.

(** [datetime] is kept as the instant the string denotes, that is as
    [new Date(datetime)]; [planets] lists the entries of the object in the
    order [Object.entries] gives them. *)
Record BirthChart : Type := mkBirthChart {
  datetime : Js.Date;
  timezone : string;
  chart_latitude : number;
  chart_longitude : number;
  houses : list number;
  planets : list (string * PlanetaryPosition)
}.

#[local] Set Warnings "-register-all".

(** [planet] is the lord read from an array, [None] when the read is out of
    range. *)
Inductive DashaPeriod : Type :=
| mkDashaPeriod (planet : option string) (startDate endDate : string)
    (years : number) (subPeriods : list DashaPeriod).

Definition dasha_planet (p : DashaPeriod) : option string :=
  match p with mkDashaPeriod l _ _ _ _ => l end.
Definition dasha_years (p : DashaPeriod) : number :=
  match p with mkDashaPeriod _ _ _ y _ => y end.
Definition dasha_subPeriods (p : DashaPeriod) : list DashaPeriod :=
  match p with mkDashaPeriod _ _ _ _ s => s end.
Definition dasha_startDate (p : DashaPeriod) : string :=
  match p with mkDashaPeriod _ s _ _ _ => s end.
Definition dasha_endDate (p : DashaPeriod) : string :=
  match p with mkDashaPeriod _ _ e _ _ => e end.

End Astrology.

Import Astrology.

(** ** src/lib/calculations/core.ts *)

Module AstrologyCalculator.

Local Open Scope string_scope.
Local Open Scope js_scope.

Definition NAKSHATRA_SPAN : number := Num (13333333 # 1000000).
Definition PADA_SPAN : number := Num (3333333 # 1000000).
Definition SIGN_SPAN : number := Num 30.

Record DMS : Type := mkDMS {
  degrees : number;
  dms_minutes : number;
  seconds : number
}.

Definition decimalToDMS (decimal : number) : DMS :=
  let degrees := Math.floor decimal in
  let minutesDecimal := (decimal - degrees) * Num 60 in
  let minutes := Math.floor minutesDecimal in
  let seconds := Math.floor ((minutesDecimal - minutes) * Num 60) in
  mkDMS degrees minutes seconds.


Definition normalizeAngle (angle : number) : number :=
  ((angle %% Num 360) + Num 360) %% Num 360.

Record NakshatraPada : Type := mkNakshatraPada {
  np_nakshatra : number;
  pada : number
}.

Definition calculateNakshatra (longitude : number) : NakshatraPada :=
  let normalizedLongitude := normalizeAngle longitude in
  let nakshatraIndex := Math.floor (normalizedLongitude / NAKSHATRA_SPAN) in
  let nakshatra := nakshatraIndex + Num 1 in
  let degreeInNakshatra := normalizedLongitude %% NAKSHATRA_SPAN in
  let pada := Math.floor (degreeInNakshatra / PADA_SPAN) + Num 1 in
  mkNakshatraPada nakshatra pada.

Definition calculateSign (longitude : number) : number :=
  Math.floor (normalizeAngle longitude / SIGN_SPAN) + Num 1.

Definition calculateHouse (longitude ascendant : number) : number :=
  let distance := normalizeAngle (longitude - ascendant) in
  Math.floor (distance / SIGN_SPAN) + Num 1.

(** The two wrap-aware helpers of this class.  Their arguments are declared
    [CelestialPosition] and read through [longitude] only; they are given
    the type [PlanetaryPosition], which extends it.  [orb = 10] when the
    argument is left out. *)
Definition isConjunction (p1 p2 : PlanetaryPosition) (orb : option number)
  : bool :=
  let orb := match orb with Some o => o | None => Num 10 end in
  let diff := Math.abs (Astrology.longitude p1 - Astrology.longitude p2) in
  (diff <=? orb) || ((Num 360 - diff) <=? orb).

Definition calculateAspect (p1 p2 : PlanetaryPosition) : number :=
  let diff := Math.abs (Astrology.longitude p1 - Astrology.longitude p2) in
  if gt diff (Num 180) then Num 360 - diff else diff.

Definition getNakshatraLord (nakshatra : number) : option string :=
  let lords := ["ketu"; "venus"; "sun"; "moon"; "mars";
                "rahu"; "jupiter"; "saturn"; "mercury"] in
  Js.array_get lords ((nakshatra - Num 1) %% Num 9).

Definition exaltations : list (string * number) :=
  [("sun", Num 1); ("moon", Num 2); ("mars", Num 10); ("mercury", Num 6);
   ("jupiter", Num 4); ("venus", Num 12); ("saturn", Num 7)].

Definition debilitations : list (string * number) :=
  [("sun", Num 7); ("moon", Num 8); ("mars", Num 4); ("mercury", Num 12);
   ("jupiter", Num 10); ("venus", Num 6); ("saturn", Num 1)].

(** [table[planet] === sign]; an absent entry is never [===] a number. *)
Definition table_is (table : list (string * number)) (planet : string)
  (sign : number) : bool :=
  match Js.get planet table with
  | Some s => s === sign
  | None => false
  end.

Definition isExalted (planet : string) (sign : number) : bool :=
  table_is exaltations planet sign.

Definition isDebilitated (planet : string) (sign : number) : bool :=
  table_is debilitations planet sign.

Definition calculateAyanamsa (julianDay : number) : number :=
  let t := (julianDay - Num 2451545) / Num 36525 in
  Num (2385 # 100) + Num (137 # 10000) * t.

Definition tropicalToSidereal (longitude ayanamsa : number) : number :=
  normalizeAngle (longitude - ayanamsa).

(** [table[key]] for a table whose keys are whole numbers and a key that is
    a number: a number that is not whole, or [NaN], names no entry. *)
Fixpoint get_Z {A : Type} (k : Z) (table : list (Z * A)) : option A :=
  match table with
  | [] => None
  | (k', v) :: rest => if Z.eqb k k' then Some v else get_Z k rest
  end.

Definition get_number {A : Type} (key : number) (table : list (Z * A))
  : option A :=
  match key with
  | Num q =>
      if Qeq_bool q (inject_Z (Qfloor q)) then get_Z (Qfloor q) table
      else None
  | NaN => None
  end.

Definition sign_lords : list (Z * string) :=
  [(1, "mars"); (2, "venus"); (3, "mercury"); (4, "moon"); (5, "sun");
   (6, "mercury"); (7, "venus"); (8, "mars"); (9, "jupiter");
   (10, "saturn"); (11, "saturn"); (12, "jupiter")]%Z.

(** [lords[sign] || '']. *)
Definition getSignLord (sign : number) : string :=
  match get_number sign sign_lords with
  | Some lord => lord
  | None => ""
  end.

Definition calculatePlanetStrength (position : PlanetaryPosition) : number :=
  let strength := Num 0 in
  let strength :=
    if (Astrology.house position === Num 1)
       || (Astrology.house position === Num 10)
    then strength + Num 20 else strength in
  let strength :=
    if String.eqb (getSignLord (Astrology.sign position))
         (Astrology.planet position)
    then strength + Num 30 else strength in
  let degreeInSign := Astrology.degree position in
  let strength :=
    if gt degreeInSign (Num 10) && (degreeInSign <? Num 20)
    then strength + Num 20 else strength in
  let strength :=
    if negb (Astrology.isRetrograde position)
    then strength + Num 15 else strength in
  Math.min (Num 100) strength.

End AstrologyCalculator.

(** ** src/lib/calculations/transit.js *)

Module TransitCalculator.

Local Open Scope string_scope.
Local Open Scope js_scope.

Definition DAILY_MOTION : list (string * number) :=
  [("sun", Num (9856 # 10000)); ("moon", Num (131763 # 10000));
   ("mars", Num (5240 # 10000)); ("mercury", Num (13833 # 10000));
   ("venus", Num (12097 # 10000)); ("jupiter", Num (831 # 10000));
   ("saturn", Num (334 # 10000)); ("rahu", Num (-529 # 10000));
   ("ketu", Num (-529 # 10000))].

Definition daysBetween (date1 date2 : Js.Date) : number :=
  let oneDay := Num 24 * Num 60 * Num 60 * Num 1000 in
  Math.round
    (Math.abs ((of_Z (Js.getTime date2) - of_Z (Js.getTime date1)) / oneDay)).

Definition calculateTransitPosition (birthPosition : PlanetaryPosition)
  (transitDate birthDate : Js.Date) : PlanetaryPosition :=
  let daysDiff := daysBetween birthDate transitDate in
  let motion := of_undefined (Js.get (planet birthPosition) DAILY_MOTION) in
  let newLongitude := longitude birthPosition + (motion * daysDiff) in
  let newLongitude := ((newLongitude %% Num 360) + Num 360) %% Num 360 in
  let np := AstrologyCalculator.calculateNakshatra newLongitude in
  let sign := AstrologyCalculator.calculateSign newLongitude in
  let dms := AstrologyCalculator.decimalToDMS (newLongitude %% Num 30) in
  {| (* ...birthPosition *)
     latitude := latitude birthPosition;
     speed := speed birthPosition;
     planet := planet birthPosition;
     isRetrograde := isRetrograde birthPosition;
     (* the fields written after the spread *)
     longitude := newLongitude;
     sign := sign;
     nakshatra := AstrologyCalculator.np_nakshatra np;
     nakshatraPada := AstrologyCalculator.pada np;
     degree := AstrologyCalculator.degrees dms;
     minutes := AstrologyCalculator.dms_minutes dms;
     house :=
       AstrologyCalculator.calculateHouse newLongitude
         (longitude birthPosition) |}.

Definition calculateAllTransits (birthChart : BirthChart)
  (transitDate : Js.Date) : list (string * PlanetaryPosition) :=
  let birthDate := datetime birthChart in
  map (fun entry : string * PlanetaryPosition =>
         let (planet, position) := entry in
         if negb (String.eqb planet "ascendant")
         then (planet, calculateTransitPosition position transitDate birthDate)
         else (planet, position))
      (planets birthChart).

Record AspectDef : Type := mkAspectDef {
  def_angle : number;
  def_type : string;
  def_maxOrb : number
}.

Record Aspect : Type := mkAspect {
  aspect_type : string;
  orb : number
}.

(** The [for ... of] loop over the aspect table: the first entry within its
    orb is returned. *)
Fixpoint first_aspect (angle : number) (aspects : list AspectDef)
  : option Aspect :=
  match aspects with
  | [] => None
  | aspectDef :: rest =>
      let orb := Math.abs (angle - def_angle aspectDef) in
      if orb <=? def_maxOrb aspectDef
      then Some (mkAspect (def_type aspectDef) orb)
      else first_aspect angle rest
  end.

(** [maxOrb = 6] when the argument is left out. *)
Definition calculateAspect (pos1 pos2 : PlanetaryPosition)
  (maxOrb : option number) : option Aspect :=
  let maxOrb := match maxOrb with Some o => o | None => Num 6 end in
  let angle := Math.abs (longitude pos1 - longitude pos2) %% Num 360 in
  let aspects :=
    [mkAspectDef (Num 0) "conjunction" maxOrb;
     mkAspectDef (Num 60) "sextile" maxOrb;
     mkAspectDef (Num 90) "square" maxOrb;
     mkAspectDef (Num 120) "trine" maxOrb;
     mkAspectDef (Num 180) "opposition" maxOrb] in
  first_aspect angle aspects.

Record TransitAspect : Type := mkTransitAspect {
  transitPlanet : string;
  natalPlanet : string;
  aspect : string;
  ta_orb : number
}.

Definition calculateTransitAspects (birthChart : BirthChart)
  (transitPositions : list (string * PlanetaryPosition))
  : list TransitAspect :=
  flat_map
    (fun t : string * PlanetaryPosition =>
       let (transitPlanet, transitPos) := t in
       if String.eqb transitPlanet "ascendant" then []
       else
         flat_map
           (fun n : string * PlanetaryPosition =>
              let (natalPlanet, natalPos) := n in
              match calculateAspect transitPos natalPos None with
              | Some a =>
                  [mkTransitAspect transitPlanet natalPlanet
                     (aspect_type a) (orb a)]
              | None => []
              end)
           (planets birthChart))
    transitPositions.

End TransitCalculator.

(** ** src/lib/calculations/astronomy.ts *)

Module AstronomicalCalculator.

Local Open Scope js_scope.

Definition J2000 : number := Num 2451545.

Definition calculateJulianDate (date : Js.Date) : number :=
  let y := of_Z (Js.getFullYear date) in
  let m := of_Z (Js.getMonth date) + Num 1 in
  let d := of_Z (Js.getDate date) in
  let h := of_Z (Js.getHours date) + of_Z (Js.getMinutes date) / Num 60
           + of_Z (Js.getSeconds date) / Num 3600 in
  let jd := Num 367 * y
            - Math.floor (Num 7 * (y + Math.floor ((m + Num 9) / Num 12))
                          / Num 4) in
  let jd := jd + (Math.floor (Num 275 * m / Num 9) + d
                  + Num (17210135 # 10) + h / Num 24) in
  let jd := jd - (Num (1 # 2)
                  * Math.sign (Num 100 * y + m - Num (1900025 # 10))
                  + Num (1 # 2)) in
  jd.

Definition calculateObliquityOfEcliptic (jd : number) : number :=
  let T := (jd - J2000) / Num 36525 in
  Num (2343929111 # 100000000)
  - (Num (468150 # 10000) / Num 3600) * T
  - (Num (59 # 100000) / Num 3600) * T * T
  + (Num (1813 # 1000000) / Num 3600) * T * T * T.

Definition normalizeAngle (angle : number) : number :=
  angle - Num 360 * Math.floor (angle / Num 360).


Section Series.

(** [Math.PI], [Math.sin] and [Math.cos]. *)
Variable PI : number.
Variables sin cos : number -> number.

Definition toRadians (degrees : number) : number := degrees * PI / Num 180.



End Series.

End AstronomicalCalculator.

(** ** src/lib/calculations/dasha.ts *)

Module DashaCalculator.

Local Open Scope string_scope.
Local Open Scope js_scope.

Section DateFns.

(** The three functions imported from date-fns and used here. *)
Variable addYears : Js.Date -> number -> Js.Date.
Variable addMonths : Js.Date -> number -> Js.Date.
Variable format : Js.Date -> string -> string.

Definition DASHA_YEARS : list (string * number) :=
  [("sun", Num 6); ("moon", Num 10); ("mars", Num 7); ("rahu", Num 18);
   ("jupiter", Num 16); ("saturn", Num 19); ("mercury", Num 17);
   ("ketu", Num 7); ("venus", Num 20)].

Definition NAKSHATRA_LORDS : list string :=
  ["ketu"; "venus"; "sun"; "moon"; "mars";
   "rahu"; "jupiter"; "saturn"; "mercury"].

Definition getNakshatraLord (nakshatra : number) : option string :=
  Js.array_get NAKSHATRA_LORDS ((nakshatra - Num 1) %% Num 9).

Definition calculateDashaBalance (nakshatra degrees : number) : number :=
  let lord := getNakshatraLord nakshatra in
  let totalYears := of_undefined (Js.get_opt lord DASHA_YEARS) in
  let nakshatraSpan := Num 13 + Num 1 / Num 3 in
  let balanceDegrees := nakshatraSpan - degrees in
  (balanceDegrees / nakshatraSpan) * totalYears.

(** The loop counter [i] of both loops runs over these values. *)
Definition nine : list Z := [0; 1; 2; 3; 4; 5; 6; 7; 8]%Z.

(** One turn of the loop of [calculateAntarDasha]; the state is
    [currentDate] and the array built so far. *)
Definition antar_step (startIndex years : number)
  (st : Js.Date * list DashaPeriod) (i : Z) : Js.Date * list DashaPeriod :=
  let (currentDate, antarDashas) := st in
  let lordIndex := (startIndex + of_Z i) %% Num 9 in
  let lord := Js.array_get NAKSHATRA_LORDS lordIndex in
  let subPeriodYears :=
    (years * of_undefined (Js.get_opt lord DASHA_YEARS)) / Num 120 in
  let endDate := addYears currentDate (Math.floor subPeriodYears) in
  let remainingMonths := (subPeriodYears %% Num 1) * Num 12 in
  let finalEndDate := addMonths endDate (Math.floor remainingMonths) in
  (finalEndDate,
   (antarDashas ++
      [mkDashaPeriod lord (format currentDate "yyyy-MM-dd")
         (format finalEndDate "yyyy-MM-dd") subPeriodYears []])%list).

Definition calculateAntarDasha (mainLord : option string)
  (startDate : Js.Date) (years : number) : list DashaPeriod :=
  let startIndex := Js.indexOf NAKSHATRA_LORDS mainLord in
  snd (fold_left (antar_step startIndex years) nine (startDate, [])).

(** One turn of the loop of [calculateDashaPeriods]; the state is
    [currentDate], [foundStart] and the array built so far. *)
Definition dasha_step (startLord : option string) (balance : number)
  (st : Js.Date * bool * list DashaPeriod) (i : Z)
  : Js.Date * bool * list DashaPeriod :=
  let '(currentDate, foundStart, dashas) := st in
  let lordIndex := (Js.indexOf NAKSHATRA_LORDS startLord + of_Z i) %% Num 9 in
  let lord := Js.array_get NAKSHATRA_LORDS lordIndex in
  let years :=
    if foundStart then of_undefined (Js.get_opt lord DASHA_YEARS)
    else balance in
  let startDate := currentDate in
  let endDate := addYears startDate years in
  (endDate, true,
   (dashas ++
      [mkDashaPeriod lord (format startDate "yyyy-MM-dd")
         (format endDate "yyyy-MM-dd") years
         (calculateAntarDasha lord startDate years)])%list).

Definition calculateDashaPeriods (birthDate : Js.Date)
  (nakshatra degrees : number) : list DashaPeriod :=
  let balance := calculateDashaBalance nakshatra degrees in
  let startLord := getNakshatraLord nakshatra in
  snd (fold_left (dasha_step startLord balance) nine (birthDate, false, [])).

(** The sum of the [years] fields of an array of periods, left to right
    from [0]. *)
Definition total_years (periods : list DashaPeriod) : number :=
  fold_left (fun acc p => acc + dasha_years p) periods (Num 0).

End DateFns.

End DashaCalculator.

(** ** src/lib/calculations/houses.ts *)

Module HouseCalculator.

Local Open Scope string_scope.
Local Open Scope js_scope.

(** How a call ends: with a value, or with a thrown error.  The only error
    this file can raise is the one for an identifier that no scope declares. *)
Inductive error : Type :=
| ReferenceError (name : string).

Inductive completion (A : Type) : Type :=
| Normal (a : A)
| Throw (e : error).

Arguments Normal {A} a.
Arguments Throw {A} e.

Definition bind {A B : Type} (c : completion A) (k : A -> completion B)
  : completion B :=
  match c with
  | Normal a => k a
  | Throw e => Throw e
  end.

Notation "x <- c ;; k" := (bind c (fun x => k))
  (at level 61, c at next level, right associativity).

(** Reading an identifier that is declared nowhere. *)
Definition undeclared (name : string) : completion number :=
  Throw (ReferenceError name).

(** [arr[i]] used as an operand: a hole reads as [undefined]. *)
Definition array_read (arr : list (option number)) (i : nat) : number :=
  match nth_error arr i with
  | Some (Some v) => v
  | _ => NaN
  end.

Section MathTrig.

(** The trigonometry of the [Math] object. *)
Variable PI : number.
Variables sin cos tan asin acos : number -> number.
Variable atan2 : number -> number -> number.

(** houses.ts imports nothing.  The method of the class of astronomy.ts
    that it calls is visible only if the environment binds the name
    [AstronomicalCalculator]: [None] when it does not. *)
Variable obliquityOfEcliptic : option (number -> number).

Definition toRadians (degrees : number) : number := degrees * PI / Num 180.

Definition toDegrees (radians : number) : number := radians * Num 180 / PI.

Definition normalizeAngle (angle : number) : number :=
  angle - Num 360 * Math.floor (angle / Num 360).

Definition calculateRAMC (jd longitude : number) : number :=
  let T := (jd - Num 2451545) / Num 36525 in
  let GMST := Num (28046061837 # 100000000)
              + Num (36098564736629 # 100000000000) * (jd - Num 2451545)
              + Num (387933 # 1000000000) * T * T
              - T * T * T / Num 38710000 in
  normalizeAngle (GMST + longitude).

Definition calculateMidheaven (RAMC obliquity : number) : number :=
  let tanRA := tan (toRadians RAMC) in
  let cosObl := cos (toRadians obliquity) in
  toDegrees (atan2 tanRA cosObl).

(** [cosObl], [tanLat] and [sinObl] are declared neither in this function
    nor in the class or the module: reading the first of them throws. *)
Definition calculateAscendant (RAMC obliquity latitude : number)
  : completion number :=
  let sinRA := sin (toRadians RAMC) in
  let cosRA := cos (toRadians RAMC) in
  let tanObl := tan (toRadians obliquity) in
  let sinLat := sin (toRadians latitude) in
  let cosLat := cos (toRadians latitude) in
  let y := neg cosRA in
  cosObl <- undeclared "cosObl" ;;
  tanLat <- undeclared "tanLat" ;;
  sinObl <- undeclared "sinObl" ;;
  let x := sinRA * cosObl - tanLat * sinObl in
  let ascendant := toDegrees (atan2 y x) in
  Normal (normalizeAngle ascendant).

(** The semi-arc angle [a] of [calculateIntermediate]. *)
Definition intermediate_arc (RAMC obliquity latitude fraction : number)
  : number :=
  let ra := RAMC + fraction * Num 90 in
  let dec :=
    toDegrees (asin (sin (toRadians obliquity) * sin (toRadians ra))) in
  let k := Num 90 * fraction in
  let h :=
    toDegrees
      (asin (sin (toRadians latitude) * sin (toRadians dec)
             + cos (toRadians latitude) * cos (toRadians dec)
               * cos (toRadians k))) in
  toDegrees
    (acos ((sin (toRadians h) * sin (toRadians latitude)
            - sin (toRadians dec))
           / (cos (toRadians h) * cos (toRadians latitude)))).

(** The function returns nothing and writes one element of [houses]; here
    it returns the array after the write. *)
Definition calculateIntermediate (RAMC obliquity latitude : number)
  (houses : list (option number)) (houseNum : positive) (fraction : number)
  : list (option number) :=
  let ra := RAMC + fraction * Num 90 in
  let a := intermediate_arc RAMC obliquity latitude fraction in
  Js.array_set houses (Pos.to_nat houseNum - 1)
    (normalizeAngle (RAMC + (if ra <? Num 180 then a else Num 360 - a))).

Definition calculatePlacidusHouses (jd latitude longitude : number)
  : completion (list (option number)) :=
  let houses : list (option number) := repeat None 12 in
  let RAMC := calculateRAMC jd longitude in
  obliquity <-
    match obliquityOfEcliptic with
    | Some calculateObliquityOfEcliptic =>
        Normal (calculateObliquityOfEcliptic jd)
    | None => undeclared "AstronomicalCalculator"
    end ;;
  let houses := Js.array_set houses 9 (calculateMidheaven RAMC obliquity) in
  let houses :=
    Js.array_set houses 3 (normalizeAngle (array_read houses 9 + Num 180)) in
  ascendant <- calculateAscendant RAMC obliquity latitude ;;
  let houses := Js.array_set houses 0 ascendant in
  let houses := Js.array_set houses 6 (normalizeAngle (ascendant + Num 180)) in
  let third := Num 1 / Num 3 in
  let two_thirds := Num 2 / Num 3 in
  let houses := calculateIntermediate RAMC obliquity latitude houses 11 third in
  let houses :=
    calculateIntermediate RAMC obliquity latitude houses 12 two_thirds in
  let houses := calculateIntermediate RAMC obliquity latitude houses 2 third in
  let houses :=
    calculateIntermediate RAMC obliquity latitude houses 1 two_thirds in
  let houses := calculateIntermediate RAMC obliquity latitude houses 8 third in
  let houses :=
    calculateIntermediate RAMC obliquity latitude houses 7 two_thirds in
  Normal houses.

End MathTrig.

End HouseCalculator.

(** ** src/lib/calculations/planetaryPositions.ts *)

Module PlanetaryPositions.

Local Open Scope string_scope.
Local Open Scope js_scope.

(** How a call ends: with a value, or with the [TypeError] of reading a
    property of [undefined]. *)
Inductive outcome (A : Type) : Type :=
| Returned (a : A)
| TypeError.

Arguments Returned {A} a.
Arguments TypeError {A}.

Definition and_then {A B : Type} (c : outcome A) (k : A -> outcome B)
  : outcome B :=
  match c with
  | Returned a => k a
  | TypeError => TypeError
  end.

(** [toLowerCase] on the letters A to Z; other characters are kept. *)
Definition lower_ascii (c : Ascii.ascii) : Ascii.ascii :=
  let n := Ascii.nat_of_ascii c in
  if (65 <=? n)%nat && (n <=? 90)%nat then Ascii.ascii_of_nat (n + 32) else c.

Fixpoint toLowerCase (s : string) : string :=
  match s with
  | EmptyString => EmptyString
  | String c rest => String (lower_ascii c) (toLowerCase rest)
  end.

(** A term table as planetaryTerms exports it: three arrays of
    [[A, B, C]] rows. *)
Record PlanetTerms : Type := mkPlanetTerms {
  L_TERMS : list (number * number * number);
  B_TERMS : list (number * number * number);
  R_TERMS : list (number * number * number)
}.

Record Spherical : Type := mkSpherical {
  sph_longitude : number;
  sph_latitude : number;
  radius : number
}.

Record Cartesian : Type := mkCartesian {
  x : number;
  y : number;
  z : number
}.

Section Terms.

(** [Math.PI], [Math.sin], [Math.cos], and the five tables imported from
    ../vsop87/planetaryTerms. *)
Variable PI : number.
Variables sin cos : number -> number.
Variables MERCURY VENUS MARS JUPITER SATURN : PlanetTerms.

Definition calculateSeries (terms : list (number * number * number))
  (T : number) : number :=
  let result :=
    fold_left
      (fun result (term : number * number * number) =>
         let '(A, B, C) := term in
         result + A * cos (B + C * T))
      terms (Num 0) in
  result * Num (1 # 100000000).

Definition getPlanetTerms (planet : string) : option PlanetTerms :=
  let terms :=
    [("mercury", MERCURY); ("venus", VENUS); ("mars", MARS);
     ("jupiter", JUPITER); ("saturn", SATURN)] in
  Js.get (toLowerCase planet) terms.

Definition normalizeAngle (angle : number) : number :=
  angle - Num 2 * PI * Math.floor (angle / (Num 2 * PI)).

(** [terms.L_TERMS] on an [undefined] [terms] throws.  (A name inherited
    from [Object.prototype] gives a [terms] without [L_TERMS], and the same
    error from [forEach] one call later.) *)
Definition calculatePosition (planet : string) (T : number)
  : outcome Spherical :=
  match getPlanetTerms planet with
  | None => TypeError
  | Some terms =>
      let L := calculateSeries (L_TERMS terms) T in
      let B := calculateSeries (B_TERMS terms) T in
      let R := calculateSeries (R_TERMS terms) T in
      Returned (mkSpherical (normalizeAngle L) B R)
  end.

Definition convertToEcliptic (L B R : number) : Cartesian :=
  let x := R * cos B * cos L in
  let y := R * cos B * sin L in
  let z := R * sin B in
  mkCartesian x y z.

Definition calculateHeliocentricCoordinates (planet : string) (jd : number)
  : outcome Cartesian :=
  let T := (jd - Num 2451545) / Num 36525 in
  and_then (calculatePosition planet T)
    (fun position =>
       Returned
         (convertToEcliptic (sph_longitude position) (sph_latitude position)
            (radius position))).

Definition calculateGeocentricPosition (planet : string) (jd : number)
  : outcome Cartesian :=
  and_then (calculateHeliocentricCoordinates planet jd)
    (fun planetPos =>
       and_then (calculateHeliocentricCoordinates "earth" jd)
         (fun earthPos =>
            Returned
              (mkCartesian (x planetPos - x earthPos)
                 (y planetPos - y earthPos)
                 (z planetPos - z earthPos)))).

End Terms.

End PlanetaryPositions.

(** ** The formulas of the specification *)

Module Spec.

Local Open Scope js_scope.

(** The minimal angular separation [min(d, 360 - d)], [d = |lonA - lonB|]. *)
Definition minimalSeparation (lonA lonB : number) : number :=
  let d := Math.abs (lonA - lonB) in
  Math.min d (Num 360 - d).

(** The whole-sign offset [((sign(longitude) - sign(ascendant)) mod 12) + 1],
    with the floored [mod]. *)
Definition wholeSignHouse (longitude ascendant : number) : number :=
  let offset :=
    AstrologyCalculator.calculateSign longitude
    - AstrologyCalculator.calculateSign ascendant in
  (((offset %% Num 12) + Num 12) %% Num 12) + Num 1.

(** The sign six signs away, modulo 12, in the numbering from 1. *)
Definition oppositeSign (sign : number) : number :=
  ((sign - Num 1 + Num 6) %% Num 12) + Num 1.

(** The signed, possibly fractional, number of days from one instant to
    another. *)
Definition signedDays (from to : Js.Date) : number :=
  (of_Z (Js.getTime to) - of_Z (Js.getTime from)) / Num 86400000.

(** [normalize(birthLongitude + meanDailyMotion * daysBetween(from, to))]. *)
Definition project (birthLongitude motion : number) (from to : Js.Date)
  : number :=
  AstrologyCalculator.normalizeAngle
    (birthLongitude + motion * signedDays from to).

End Spec.

(** ** Auxiliary definitions for the statements and proofs *)

Module Support.

Local Open Scope string_scope.
Local Open Scope js_scope.

(** The value of [normalizeAngle] on a finite angle. *)
Definition norm360 (q : Q) : Q := Qrem (Qrem q 360 + 360) 360.

(** [Math.round(Math.abs(ms / oneDay))] on integers: the whole number of
    days nearest to [|ms|], a half rounding up. *)
Definition wholeDays (ms : Z) : Z := ((Z.abs ms + 43200000) / 86400000)%Z.

(** The [years] field written by turn [i] of the loop of
    [calculateAntarDasha]. *)
Definition sub_years (startIndex years : number) (i : Z) : number :=
  (years
   * of_undefined
       (Js.get_opt
          (Js.array_get DashaCalculator.NAKSHATRA_LORDS
             ((startIndex + of_Z i) %% Num 9))
          DashaCalculator.DASHA_YEARS))
  / Num 120.

Section DateFns.

Variable addYears : Js.Date -> number -> Js.Date.
Variable addMonths : Js.Date -> number -> Js.Date.
Variable format : Js.Date -> string -> string.

(** The period pushed by turn [i] of the loop of [calculateDashaPeriods]. *)
Definition dasha_entry (startLord : option string) (balance : number)
  (currentDate : Js.Date) (foundStart : bool) (i : Z) : DashaPeriod :=
  let lord :=
    Js.array_get DashaCalculator.NAKSHATRA_LORDS
      ((Js.indexOf DashaCalculator.NAKSHATRA_LORDS startLord + of_Z i)
       %% Num 9) in
  let years :=
    if foundStart
    then of_undefined (Js.get_opt lord DashaCalculator.DASHA_YEARS)
    else balance in
  mkDashaPeriod lord (format currentDate "yyyy-MM-dd")
    (format (addYears currentDate years) "yyyy-MM-dd") years
    (DashaCalculator.calculateAntarDasha addYears addMonths format
       lord currentDate years).

End DateFns.

(** The durations of the sub-periods of [p] sum to the duration of [p], to
    within [1e-9] years. *)
Definition within_tolerance (p : DashaPeriod) : Prop :=
  (Math.abs
     (DashaCalculator.total_years (dasha_subPeriods p) - dasha_years p)
   <=? Num (1 # 1000000000)) = true.

(** The lord and the [years] of the period pushed by turn [i] of the loop
    of [calculateDashaPeriods]; neither depends on the dates. *)
Definition top_lord (startLord : option string) (i : Z) : option string :=
  Js.array_get DashaCalculator.NAKSHATRA_LORDS
    ((Js.indexOf DashaCalculator.NAKSHATRA_LORDS startLord + of_Z i)
     %% Num 9).

Definition top_years (startLord : option string) (balance : number)
  (foundStart : bool) (i : Z) : number :=
  if foundStart
  then of_undefined
         (Js.get_opt (top_lord startLord i) DashaCalculator.DASHA_YEARS)
  else balance.

(** The lord of the sub-period pushed by turn [i] of the loop of
    [calculateAntarDasha]. *)
Definition sub_lord (startIndex : number) (i : Z) : option string :=
  Js.array_get DashaCalculator.NAKSHATRA_LORDS
    ((startIndex + of_Z i) %% Num 9).

(** The periods follow one another from [start]: the first starts at
    [start] and each next one starts where the one before ends. *)
Fixpoint contiguous (start : string) (periods : list DashaPeriod) : Prop :=
  match periods with
  | [] => True
  | p :: rest =>
      dasha_startDate p = start /\ contiguous (dasha_endDate p) rest
  end.

(** Where a run of periods that starts at [start] ends. *)
Definition chain_end (start : string) (periods : list DashaPeriod)
  : string :=
  fold_left (fun _ p => dasha_endDate p) periods start.

End Support.

(** ** Sample inputs *)

Module Examples.

Local Open Scope string_scope.
Local Open Scope js_scope.

(** Instants of the year 2000, in a zone whose local time is UTC. *)
Definition noon_2000_01_01 : Js.Date := Js.mkDate 946728000000 2000 0 1 12 0 0.
Definition noon_2000_01_02 : Js.Date := Js.mkDate 946814400000 2000 0 2 12 0 0.
Definition noon_2000_01_31 : Js.Date := Js.mkDate 949320000000 2000 0 31 12 0 0.
Definition noon_2000_04_10 : Js.Date := Js.mkDate 955368000000 2000 3 10 12 0 0.

(** A natal position at [lon] in a chart whose ascendant is at [asc], its
    derived fields filled in by the calculator. *)
Definition natal (name : string) (lon asc : number) : PlanetaryPosition :=
  let np := AstrologyCalculator.calculateNakshatra lon in
  let dms := AstrologyCalculator.decimalToDMS (lon %% Num 30) in
  {| longitude := lon;
     latitude := Num 0;
     speed :=
       match Js.get name TransitCalculator.DAILY_MOTION with
       | Some motion => motion
       | None => Num 0
       end;
     planet := name;
     house := AstrologyCalculator.calculateHouse lon asc;
     sign := AstrologyCalculator.calculateSign lon;
     nakshatra := AstrologyCalculator.np_nakshatra np;
     nakshatraPada := AstrologyCalculator.pada np;
     degree := AstrologyCalculator.degrees dms;
     minutes := AstrologyCalculator.dms_minutes dms;
     isRetrograde := false |}.

(** A chart cast for noon of 1 January 2000 with the ascendant at 0 degrees
    and the Sun at 100 degrees. *)
Definition chart : BirthChart :=
  {| datetime := noon_2000_01_01;
     timezone := "UTC";
     chart_latitude := Num 0;
     chart_longitude := Num 0;
     houses := map (fun k => Num (inject_Z (30 * k)))
                 [0; 1; 2; 3; 4; 5; 6; 7; 8; 9; 10; 11]%Z;
     planets :=
       [("ascendant", natal "ascendant" (Num 0) (Num 0));
        ("sun", natal "sun" (Num 100) (Num 0));
        ("moon", natal "moon" (Num 200) (Num 0));
        ("mars", natal "mars" (Num 45) (Num 0));
        ("mercury", natal "mercury" (Num 110) (Num 0));
        ("jupiter", natal "jupiter" (Num 250) (Num 0));
        ("venus", natal "venus" (Num 80) (Num 0));
        ("saturn", natal "saturn" (Num 300) (Num 0));
        ("rahu", natal "rahu" (Num 15) (Num 0));
        ("ketu", natal "ketu" (Num 195) (Num 0))] |}.

(** A stand-in for date-fns that moves no date and prints nothing; the
    [years] fields of a period do not depend on the date functions. *)
Definition stillDate (d : Js.Date) (_ : number) : Js.Date := d.
Definition blankFormat (_ : Js.Date) (_ : string) : string := "".

End Examples.

(** * Properties *)

Import Support.

(** ** Floors, truncation and the remainder *)

Section Rounding.

Local Open Scope Q_scope.

Lemma Qfloor_unique (x : Q) (k : Z) :
  inject_Z k <= x -> x < inject_Z (k + 1) -> Qfloor x = k.
Proof.
  intros Hlo Hhi.
  pose proof (Qfloor_le x) as H1.
  pose proof (Qlt_floor x) as H2.
  assert (inject_Z k < inject_Z (Qfloor x + 1)) as A by lra.
  assert (inject_Z (Qfloor x) < inject_Z (k + 1)) as B by lra.
  rewrite <- Zlt_Qlt in A, B. lia.
Qed.

Lemma Qfloor_bounds (x : Q) :
  inject_Z (Qfloor x) <= x /\ x < inject_Z (Qfloor x) + 1.
Proof.
  split; [apply Qfloor_le|].
  pose proof (Qlt_floor x) as H. rewrite inject_Z_plus in H. exact H.
Qed.

Lemma Zlt_of_Qlt (a b : Z) : inject_Z a < inject_Z b -> (a < b)%Z.
Proof. intros H. rewrite Zlt_Qlt. exact H. Qed.

Lemma Qtrunc_nonneg (x : Q) : 0 <= x -> Qtrunc x = Qfloor x.
Proof.
  destruct x as [n d]. unfold Qtrunc, Qfloor, Qle. simpl.
  intros H. apply Z.quot_div_nonneg; lia.
Qed.

Lemma Qtrunc_nonpos (x : Q) : x <= 0 -> Qtrunc x = Qceiling x.
Proof.
  destruct x as [n d]. unfold Qtrunc, Qceiling, Qfloor, Qle, Qopp. simpl.
  intros H.
  replace n with (- (- n))%Z at 1 by lia.
  rewrite Z.quot_opp_l by lia. f_equal. apply Z.quot_div_nonneg; lia.
Qed.

(** The truncated quotient stays within one unit of its argument, on the
    side of zero. *)
Lemma Qtrunc_bounds (x : Q) :
  (0 <= x -> inject_Z (Qtrunc x) <= x /\ x < inject_Z (Qtrunc x) + 1) /\
  (x <= 0 -> x <= inject_Z (Qtrunc x) /\ inject_Z (Qtrunc x) - 1 < x).
Proof.
  split; intros H.
  - rewrite (Qtrunc_nonneg x H). apply Qfloor_bounds.
  - rewrite (Qtrunc_nonpos x H). split; [apply Qle_ceiling|].
    pose proof (Qceiling_lt x) as C.
    unfold Z.sub in C. rewrite inject_Z_plus, inject_Z_opp in C.
    change (inject_Z 1) with 1 in C. lra.
Qed.

(** On a non-negative dividend [%] is the floored remainder. *)
Lemma Qrem_nonneg (x m : Q) :
  0 < m -> 0 <= x ->
  Qrem x m == x - m * inject_Z (Qfloor (x / m)) /\ 0 <= Qrem x m < m.
Proof.
  intros Hm Hx. unfold Qrem.
  assert (0 <= x / m) as Hq.
  { apply Qle_shift_div_l; lra. }
  rewrite (Qtrunc_nonneg _ Hq).
  destruct (Qfloor_bounds (x / m)) as [L U].
  assert (x == (x / m) * m) as E by (field; lra).
  split; [reflexivity|]. split; nra.
Qed.

(** In general the remainder has the sign of the dividend. *)
Lemma Qrem_range (x m : Q) : 0 < m -> - m < Qrem x m /\ Qrem x m < m.
Proof.
  intros Hm. unfold Qrem.
  assert (x == (x / m) * m) as E by (field; lra).
  destruct (Qlt_le_dec x 0) as [Hx | Hx].
  - assert (x / m <= 0) as Hq.
    { apply Qle_shift_div_r; lra. }
    destruct (Qtrunc_bounds (x / m)) as [_ B]. destruct (B Hq) as [L U].
    split; nra.
  - destruct (Qrem_nonneg x m Hm Hx) as [_ [L U]]. unfold Qrem in L, U.
    split; lra.
Qed.

(** The idiom [((x % m) + m) % m] computes the floored remainder. *)
Lemma double_rem_floor (x m : Q) :
  0 < m ->
  Qrem (Qrem x m + m) m == x - m * inject_Z (Qfloor (x / m)) /\
  0 <= Qrem (Qrem x m + m) m < m.
Proof.
  intros Hm.
  destruct (Qrem_range x m Hm) as [L U].
  assert (0 <= Qrem x m + m) as P by lra.
  destruct (Qrem_nonneg (Qrem x m + m) m Hm P) as [E B].
  split; [|exact B].
  rewrite E in B. rewrite E. clear E.
  set (t := Qtrunc (x / m)) in *.
  assert (Qrem x m == x - m * inject_Z t) as R by reflexivity.
  set (k := Qfloor ((Qrem x m + m) / m)) in *.
  assert (Qfloor (x / m) = (t - 1 + k)%Z) as F.
  { apply Qfloor_unique.
    - apply Qle_shift_div_l; [lra|].
      unfold Z.sub. rewrite !inject_Z_plus, inject_Z_opp.
      change (inject_Z 1) with 1. nra.
    - apply Qlt_shift_div_r; [lra|].
      unfold Z.sub. rewrite !inject_Z_plus, inject_Z_opp.
      change (inject_Z 1) with 1. nra. }
  rewrite F. unfold Z.sub. rewrite !inject_Z_plus, inject_Z_opp.
  change (inject_Z 1) with 1. lra.
Qed.

Lemma norm360_spec (q : Q) :
  norm360 q == q - 360 * inject_Z (Qfloor (q / 360)) /\ 0 <= norm360 q < 360.
Proof. apply double_rem_floor. reflexivity. Qed.

Lemma floor_thirty_range (r : Q) :
  0 <= r < 360 -> (0 <= Qfloor (r / 30) <= 11)%Z.
Proof.
  intros [L U].
  destruct (Qfloor_bounds (r / 30)) as [FL FU].
  assert (r == (r / 30) * 30) as E by (field; lra).
  assert (inject_Z (-1) < inject_Z (Qfloor (r / 30))) as A.
  { change (inject_Z (-1)) with (-(1)). lra. }
  assert (inject_Z (Qfloor (r / 30)) < inject_Z 12) as B.
  { change (inject_Z 12) with 12. lra. }
  rewrite <- Zlt_Qlt in A, B. lia.
Qed.

End Rounding.

(** ** [AstrologyCalculator] on finite angles *)

Section CoreFacts.

Local Open Scope Q_scope.

Lemma normalizeAngle_Num (q : Q) :
  AstrologyCalculator.normalizeAngle (Num q) = Num (norm360 q).
Proof. reflexivity. Qed.

Lemma calculateSign_Num (q : Q) :
  AstrologyCalculator.calculateSign (Num q)
  = Num (inject_Z (Qfloor (norm360 q / 30)) + 1).
Proof. reflexivity. Qed.

Lemma calculateHouse_Num (l a : Q) :
  AstrologyCalculator.calculateHouse (Num l) (Num a)
  = Num (inject_Z (Qfloor (norm360 (l - a) / 30)) + 1).
Proof. reflexivity. Qed.

(** The sign is in [1,12] for every finite longitude. *)
Lemma calculateSign_range (q : Q) :
  exists s : Z,
    AstrologyCalculator.calculateSign (Num q) =n= of_Z s /\ (1 <= s <= 12)%Z.
Proof.
  exists (Qfloor (norm360 q / 30) + 1)%Z. split.
  - rewrite calculateSign_Num. unfold of_Z, num_eq.
    rewrite inject_Z_plus. reflexivity.
  - pose proof (floor_thirty_range _ (proj2 (norm360_spec q))). lia.
Qed.

End CoreFacts.

(** ** Julian Day *)

Section JulianDay.

Local Open Scope js_scope.

(** C1.  For 1 January 2000, 12:00:00, [calculateJulianDate] returns
    2451544.0, one day short of the J2000.0 epoch 2451545.0 that the class
    keeps in [J2000]: the last statement subtracts
    [0.5 * sign(...) + 0.5], which is 1 for every date after February 1900,
    where the formula it follows subtracts [0.5 * sign(...)] and adds [0.5]. *)
Theorem julian_date_of_j2000_is_one_day_short :
  AstronomicalCalculator.calculateJulianDate Examples.noon_2000_01_01
  =n= Num 2451544
  /\ (AstronomicalCalculator.calculateJulianDate Examples.noon_2000_01_01
      === AstronomicalCalculator.J2000) = false
  /\ AstronomicalCalculator.calculateJulianDate Examples.noon_2000_01_01
     + Num 1 =n= AstronomicalCalculator.J2000.
Proof.
  split; [|split].
  - vm_compute. reflexivity.
  - vm_compute. reflexivity.
  - vm_compute. reflexivity.
Qed.

End JulianDay.

(** ** Sign, nakshatra and pada *)

Section Nakshatra.

Local Open Scope js_scope.

(** C4.  [NAKSHATRA_SPAN] and [PADA_SPAN] are the decimals 13.333333 and
    3.333333, not 360/27 and 360/108.  At longitude 359.999995 the
    nakshatra is 28, and at longitude 13.3333325, which lies in nakshatra 1
    below the boundary 360/27, the pada is 5. *)
Theorem nakshatra_and_pada_leave_their_ranges :
  AstrologyCalculator.np_nakshatra
    (AstrologyCalculator.calculateNakshatra (Num (359999995 # 1000000)))
  =n= Num 28
  /\ AstrologyCalculator.pada
       (AstrologyCalculator.calculateNakshatra (Num (133333325 # 10000000)))
     =n= Num 5
  /\ AstrologyCalculator.np_nakshatra
       (AstrologyCalculator.calculateNakshatra (Num (133333325 # 10000000)))
     =n= Num 1
  /\ (Num (133333325 # 10000000) <? Num (360 # 27)) = true.
Proof.
  repeat split; vm_compute; reflexivity.
Qed.

End Nakshatra.

(** ** Houses *)

Section Houses.

Local Open Scope js_scope.
Local Open Scope Q_scope.

(** C7, as stated, fails: a body at 35 degrees (sign 2) with the ascendant
    at 25 degrees (sign 1) is in house 1, while the whole-sign offset of the
    two signs is 2. *)
Lemma house_is_not_the_sign_offset :
  AstrologyCalculator.calculateHouse (Num 35) (Num 25) =n= Num 1
  /\ AstrologyCalculator.calculateSign (Num 35) =n= Num 2
  /\ AstrologyCalculator.calculateSign (Num 25) =n= Num 1
  /\ Spec.wholeSignHouse (Num 35) (Num 25) =n= Num 2.
Proof.
  repeat split; vm_compute; reflexivity.
Qed.

(** C7, amended.  The house is [floor(normalize(longitude - ascendant) / 30)
    + 1], a whole number in [1,12] counted in 30-degree steps from the
    ascendant's own degree.  It is the whole-sign offset
    [((sign(longitude) - sign(ascendant)) mod 12) + 1] when the body's degree
    within its sign is at least the ascendant's degree within its sign, and
    one house less (cyclically) otherwise. *)
Theorem calculateHouse_degree_offset (l a : Q) :
  exists sL sA h : Z,
    AstrologyCalculator.calculateSign (Num l) =n= of_Z sL /\
    AstrologyCalculator.calculateSign (Num a) =n= of_Z sA /\
    AstrologyCalculator.calculateHouse (Num l) (Num a) =n= of_Z h /\
    (1 <= h <= 12)%Z /\
    h = ((sL - sA
          - (if (AstrologyCalculator.normalizeAngle (Num a) %% Num 30
                 <=? AstrologyCalculator.normalizeAngle (Num l) %% Num 30)%js
             then 0 else 1)) mod 12 + 1)%Z.
Proof.
  exists (Qfloor (norm360 l / 30) + 1)%Z, (Qfloor (norm360 a / 30) + 1)%Z,
         (Qfloor (norm360 (l - a) / 30) + 1)%Z.
  rewrite !calculateSign_Num, calculateHouse_Num, !normalizeAngle_Num.
  unfold of_Z, num_eq. rewrite !inject_Z_plus.
  repeat (split; [reflexivity|]).
  destruct (norm360_spec l) as [EL BL].
  destruct (norm360_spec a) as [EA BA].
  destruct (norm360_spec (l - a)) as [ED BD].
  pose proof (floor_thirty_range _ BL) as RL.
  pose proof (floor_thirty_range _ BA) as RA.
  pose proof (floor_thirty_range _ BD) as RD.
  split; [lia|].
  change (Num (norm360 a) %% Num 30)%js with (Num (Qrem (norm360 a) 30)).
  change (Num (norm360 l) %% Num 30)%js with (Num (Qrem (norm360 l) 30)).
  unfold le.
  destruct (Qrem_nonneg (norm360 l) 30 eq_refl (proj1 BL)) as [DL _].
  destruct (Qrem_nonneg (norm360 a) 30 eq_refl (proj1 BA)) as [DA _].
  destruct (Qfloor_bounds (norm360 l / 30)) as [L1 L2].
  destruct (Qfloor_bounds (norm360 a / 30)) as [A1 A2].
  destruct (Qfloor_bounds (norm360 (l - a) / 30)) as [D1 D2].
  assert (norm360 l == (norm360 l / 30) * 30) as XL by (field; lra).
  assert (norm360 a == (norm360 a / 30) * 30) as XA by (field; lra).
  assert (norm360 (l - a) == (norm360 (l - a) / 30) * 30) as XD
    by (field; lra).
  set (fl := Qfloor (l / 360)) in *.
  set (fa := Qfloor (a / 360)) in *.
  set (fd := Qfloor ((l - a) / 360)) in *.
  set (sl := Qfloor (norm360 l / 30)) in *.
  set (sa := Qfloor (norm360 a / 30)) in *.
  set (hd := Qfloor (norm360 (l - a) / 30)) in *.
  set (L := norm360 l) in *. set (A := norm360 a) in *.
  set (D := norm360 (l - a)) in *.
  assert (D == L - A + 360 * inject_Z (fl - fa - fd)) as ED'.
  { unfold Z.sub. rewrite !inject_Z_plus, !inject_Z_opp. lra. }
  set (e := (fl - fa - fd)%Z) in *.
  destruct (Qle_bool (Qrem A 30) (Qrem L 30)) eqn:C.
  - apply Qle_bool_iff in C. rewrite DL, DA in C.
    assert (hd = sl - sa + 12 * e)%Z as H.
    { assert (hd < sl - sa + 12 * e + 1)%Z.
      { apply Zlt_of_Qlt. rewrite !inject_Z_plus, inject_Z_mult.
        unfold Z.sub. rewrite inject_Z_plus, inject_Z_opp.
        change (inject_Z 1) with 1. change (inject_Z 12) with 12. lra. }
      assert (sl - sa + 12 * e < hd + 1)%Z.
      { apply Zlt_of_Qlt. rewrite !inject_Z_plus, inject_Z_mult.
        unfold Z.sub. rewrite inject_Z_plus, inject_Z_opp.
        change (inject_Z 1) with 1. change (inject_Z 12) with 12. lra. }
      lia. }
    f_equal. apply (Z.mod_unique _ _ (- e)%Z); lia.
  - assert (~ Qrem A 30 <= Qrem L 30) as C'.
    { intros X. apply Qle_bool_iff in X. congruence. }
    rewrite DL, DA in C'. apply Qnot_le_lt in C'.
    assert (hd = sl - sa - 1 + 12 * e)%Z as H.
    { assert (hd < sl - sa - 1 + 12 * e + 1)%Z.
      { apply Zlt_of_Qlt. unfold Z.sub.
        rewrite !inject_Z_plus, inject_Z_mult, !inject_Z_opp.
        change (inject_Z 1) with 1. change (inject_Z 12) with 12. lra. }
      assert (sl - sa - 1 + 12 * e < hd + 1)%Z.
      { apply Zlt_of_Qlt. unfold Z.sub.
        rewrite !inject_Z_plus, inject_Z_mult, !inject_Z_opp.
        change (inject_Z 1) with 1. change (inject_Z 12) with 12. lra. }
      lia. }
    f_equal. apply (Z.mod_unique _ _ (- e)%Z); lia.
Qed.

End Houses.

(** ** Dignities *)

Section Dignities.

Local Open Scope string_scope.
Local Open Scope js_scope.

Lemma strict_eq_two_values (x y : Q) (s : number) :
  ~ (x == y)%Q -> ((Num x === s) && (Num y === s))%bool = false.
Proof.
  intros Hxy. destruct s as [q|]; [|reflexivity]. simpl.
  destruct (Qeq_bool x q) eqn:E1; [|reflexivity].
  destruct (Qeq_bool y q) eqn:E2; [|reflexivity].
  apply Qeq_bool_iff in E1, E2. exfalso. apply Hxy. rewrite E1, E2.
  reflexivity.
Qed.

(** C10.  No planet name and no sign make [isExalted] and [isDebilitated]
    both true, and each of the seven planets of the exaltation table has as
    its debilitation sign the sign six signs away, modulo 12. *)
Theorem exaltation_and_debilitation_are_opposite :
  (forall (planet : string) (sign : number),
      (AstrologyCalculator.isExalted planet sign
       && AstrologyCalculator.isDebilitated planet sign)%bool = false)
  /\ List.length AstrologyCalculator.exaltations = 7%nat
  /\ Forall
       (fun entry : string * number =>
          match Js.get (fst entry) AstrologyCalculator.debilitations with
          | Some d => d =n= Spec.oppositeSign (snd entry)
          | None => False
          end)
       AstrologyCalculator.exaltations.
Proof.
  split; [|split].
  - intros planet sign.
    unfold AstrologyCalculator.isExalted, AstrologyCalculator.isDebilitated,
      AstrologyCalculator.table_is, AstrologyCalculator.exaltations,
      AstrologyCalculator.debilitations.
    cbn [Js.get].
    repeat match goal with
      | |- context [String.eqb planet ?k] =>
          destruct (String.eqb planet k)
      end;
      try reflexivity;
      apply strict_eq_two_values; intros E; vm_compute in E; discriminate.
  - reflexivity.
  - repeat constructor; vm_compute; reflexivity.
Qed.

End Dignities.

(** ** Transits *)

Section Transits.

Local Open Scope string_scope.
Local Open Scope js_scope.
Local Open Scope Q_scope.

Lemma daysBetween_Num (date1 date2 : Js.Date) :
  TransitCalculator.daysBetween date1 date2
  = Num (inject_Z
           (Qfloor
              (Qabs ((inject_Z (Js.getTime date2)
                      - inject_Z (Js.getTime date1))
                     / (24 * 60 * 60 * 1000))
               + (1 # 2)))).
Proof. reflexivity. Qed.

(** [daysBetween] is the whole number of days nearest to the absolute
    difference of the two time values. *)
Lemma daysBetween_wholeDays (date1 date2 : Js.Date) :
  TransitCalculator.daysBetween date1 date2
  = of_Z (wholeDays (Js.getTime date2 - Js.getTime date1)).
Proof.
  rewrite daysBetween_Num. unfold of_Z. do 2 f_equal.
  set (t1 := Js.getTime date1). set (t2 := Js.getTime date2).
  assert (Qabs ((inject_Z t2 - inject_Z t1) / (24 * 60 * 60 * 1000))
          == inject_Z (Z.abs (t2 - t1)) / 86400000) as E.
  { assert (inject_Z t2 - inject_Z t1 == inject_Z (t2 - t1)) as ->.
    { unfold Z.sub. rewrite inject_Z_plus, inject_Z_opp. reflexivity. }
    unfold Qdiv. rewrite Qabs_Qmult. reflexivity. }
  unfold wholeDays. set (a := Z.abs (t2 - t1)) in *.
  assert (0 <= a)%Z as Ha by (subst a; lia).
  pose proof (Z.mul_div_le (a + 43200000) 86400000 eq_refl) as Lo.
  pose proof (Z.mul_succ_div_gt (a + 43200000) 86400000 eq_refl) as Hi.
  set (n := ((a + 43200000) / 86400000)%Z) in *.
  assert (inject_Z a == (inject_Z a / 86400000) * 86400000) as X
    by (field; lra).
  apply Qfloor_unique; rewrite E.
  - rewrite Zle_Qle in Lo. rewrite inject_Z_mult, inject_Z_plus in Lo.
    change (inject_Z 86400000) with 86400000 in Lo.
    change (inject_Z 43200000) with 43200000 in Lo. lra.
  - unfold Z.succ in Hi. rewrite Zlt_Qlt in Hi.
    rewrite inject_Z_mult, !inject_Z_plus in Hi.
    rewrite inject_Z_plus.
    change (inject_Z 86400000) with 86400000 in Hi.
    change (inject_Z 43200000) with 43200000 in Hi.
    change (inject_Z 1) with 1 in *. lra.
Qed.

(** C6, as stated, fails: the Sun at natal longitude 0, born at noon of
    2 January 2000 and projected to noon of 1 January 2000 (one day
    earlier, -1 signed days) is placed at 0.9856 degrees, where
    [normalize(0 + 0.9856 * (-1))] is 359.0144 degrees. *)
Lemma transit_ignores_the_direction_of_time :
  longitude
    (TransitCalculator.calculateTransitPosition
       (Examples.natal "sun" (Num 0) (Num 0))
       Examples.noon_2000_01_01 Examples.noon_2000_01_02)
  =n= Num (9856 # 10000)
  /\ Spec.signedDays Examples.noon_2000_01_02 Examples.noon_2000_01_01
     =n= Num (-1)
  /\ Spec.project (Num 0) (Num (9856 # 10000))
       Examples.noon_2000_01_02 Examples.noon_2000_01_01
     =n= Num (3590144 # 10000).
Proof.
  repeat split; vm_compute; reflexivity.
Qed.

(** C6, amended.  For a body of the mean-motion table at a finite natal
    longitude, the projected longitude is
    [normalize(birthLongitude + meanDailyMotion(body) * n)], a value in
    [0,360), where [n = daysBetween(from, to)] is the absolute number of
    days between the two instants rounded to the nearest whole day (a half
    rounds up): unsigned and never fractional. *)
Theorem transit_longitude_by_whole_days
  (birthPosition : PlanetaryPosition) (transitDate birthDate : Js.Date)
  (l m : Q) :
  longitude birthPosition = Num l ->
  Js.get (planet birthPosition) TransitCalculator.DAILY_MOTION
  = Some (Num m) ->
  let n := wholeDays (Js.getTime transitDate - Js.getTime birthDate) in
  TransitCalculator.daysBetween birthDate transitDate = of_Z n
  /\ (0 <= n)%Z
  /\ exists r : Q,
       longitude
         (TransitCalculator.calculateTransitPosition birthPosition
            transitDate birthDate)
       = Num r
       /\ r == (l + m * inject_Z n)
               - 360 * inject_Z (Qfloor ((l + m * inject_Z n) / 360))
       /\ 0 <= r < 360.
Proof.
  intros Hl Hm n. split; [apply daysBetween_wholeDays|]. split.
  - subst n. unfold wholeDays. apply Z.div_pos; lia.
  - exists (norm360 (l + m * inject_Z n)).
    split; [|apply norm360_spec].
    unfold TransitCalculator.calculateTransitPosition.
    cbn [longitude]. rewrite Hl, Hm, daysBetween_wholeDays.
    reflexivity.
Qed.

(** The amended C6 at work: the Sun at natal longitude 0, projected 100
    days later, is at 98.56 degrees. *)
Lemma transit_longitude_by_whole_days_witness :
  longitude (Examples.natal "sun" (Num 0) (Num 0)) = Num 0
  /\ Js.get (planet (Examples.natal "sun" (Num 0) (Num 0)))
       TransitCalculator.DAILY_MOTION
     = Some (Num (9856 # 10000))
  /\ (TransitCalculator.daysBetween Examples.noon_2000_01_01
        Examples.noon_2000_04_10
      = of_Z (wholeDays
                (Js.getTime Examples.noon_2000_04_10
                 - Js.getTime Examples.noon_2000_01_01))
      /\ (0 <= wholeDays
                 (Js.getTime Examples.noon_2000_04_10
                  - Js.getTime Examples.noon_2000_01_01))%Z
      /\ exists r : Q,
           longitude
             (TransitCalculator.calculateTransitPosition
                (Examples.natal "sun" (Num 0) (Num 0))
                Examples.noon_2000_04_10 Examples.noon_2000_01_01)
           = Num r
           /\ r == (0 + (9856 # 10000)
                        * inject_Z
                            (wholeDays
                               (Js.getTime Examples.noon_2000_04_10
                                - Js.getTime Examples.noon_2000_01_01)))
                   - 360
                     * inject_Z
                         (Qfloor
                            ((0 + (9856 # 10000)
                                  * inject_Z
                                      (wholeDays
                                         (Js.getTime Examples.noon_2000_04_10
                                          - Js.getTime
                                              Examples.noon_2000_01_01)))
                             / 360))
           /\ 0 <= r < 360).
Proof.
  split; [reflexivity|]. split; [reflexivity|].
  apply (transit_longitude_by_whole_days
           (Examples.natal "sun" (Num 0) (Num 0))
           Examples.noon_2000_04_10 Examples.noon_2000_01_01
           0 (9856 # 10000));
    reflexivity.
Defined.

(** One hundred whole days at the Sun's mean motion: 98.56 degrees. *)
Lemma sun_after_one_hundred_days :
  longitude
    (TransitCalculator.calculateTransitPosition
       (Examples.natal "sun" (Num 0) (Num 0))
       Examples.noon_2000_04_10 Examples.noon_2000_01_01)
  =n= Num (9856 # 100).
Proof. vm_compute. reflexivity. Qed.

(** C9.  [calculateTransitPosition] returns the planet, latitude, speed
    and retrograde flag of the birth position unchanged. *)
Theorem transit_keeps_planet_latitude_speed_retrograde
  (birthPosition : PlanetaryPosition) (transitDate birthDate : Js.Date) :
  let transit :=
    TransitCalculator.calculateTransitPosition birthPosition transitDate
      birthDate in
  planet transit = planet birthPosition
  /\ latitude transit = latitude birthPosition
  /\ speed transit = speed birthPosition
  /\ isRetrograde transit = isRetrograde birthPosition.
Proof.
  intros transit. subst transit.
  unfold TransitCalculator.calculateTransitPosition.
  cbn [planet latitude speed isRetrograde].
  repeat split.
Qed.

(** C3.  In the sample chart (ascendant at 0 degrees, Sun at 100 degrees)
    projected 30 days ahead, the Sun is at 129.568 degrees and is given
    house 1: its offset from its own natal longitude, which is what
    [calculateTransitPosition] passes as the ascendant.  Its house from the
    natal ascendant is 5.  The ascendant entry itself is returned
    unchanged. *)
Theorem transit_house_is_counted_from_the_natal_body :
  let transits :=
    TransitCalculator.calculateAllTransits Examples.chart
      Examples.noon_2000_01_31 in
  exists sun ascendant : PlanetaryPosition,
    Js.get "sun" transits = Some sun
    /\ Js.get "ascendant" (planets Examples.chart) = Some ascendant
    /\ Js.get "ascendant" transits = Some ascendant
    /\ longitude sun =n= Num (129568 # 1000)
    /\ house sun =n= Num 1
    /\ AstrologyCalculator.calculateHouse (longitude sun)
         (longitude ascendant) =n= Num 5
    /\ Spec.wholeSignHouse (longitude sun) (longitude ascendant) =n= Num 5.
Proof.
  intros transits. subst transits.
  eexists. eexists.
  split; [reflexivity|]. split; [reflexivity|]. split; [reflexivity|].
  repeat split; vm_compute; reflexivity.
Qed.

(** C2.  With the default orb of 6 degrees, positions at 358 and 2 degrees
    get no aspect from [TransitCalculator.calculateAspect]: the angle it
    tests is 356.  Their minimal separation is 4 degrees, within the orb of
    the conjunction, as the two helpers of [AstrologyCalculator] find. *)
Theorem aspect_misses_the_wrap_around :
  TransitCalculator.calculateAspect
    (Examples.natal "sun" (Num 358) (Num 0))
    (Examples.natal "moon" (Num 2) (Num 0)) None
  = None
  /\ Spec.minimalSeparation (Num 358) (Num 2) =n= Num 4
  /\ AstrologyCalculator.calculateAspect
       (Examples.natal "sun" (Num 358) (Num 0))
       (Examples.natal "moon" (Num 2) (Num 0))
     =n= Num 4
  /\ AstrologyCalculator.isConjunction
       (Examples.natal "sun" (Num 358) (Num 0))
       (Examples.natal "moon" (Num 2) (Num 0)) (Some (Num 6))
     = true.
Proof.
  repeat split; vm_compute; reflexivity.
Qed.

End Transits.

(** ** Dasha periods *)

Section Dasha.

Import DashaCalculator.
Local Open Scope string_scope.
Local Open Scope js_scope.

Variable addYears : Js.Date -> number -> Js.Date.
Variable addMonths : Js.Date -> number -> Js.Date.
Variable format : Js.Date -> string -> string.

(** The [years] fields written by the loop of [calculateAntarDasha] do not
    depend on the dates. *)
Lemma antar_fold_years (startIndex years : number) (l : list Z) :
  forall (d : Js.Date) (acc : list DashaPeriod),
    map dasha_years
      (snd (fold_left (antar_step addYears addMonths format startIndex years)
              l (d, acc)))
    = (map dasha_years acc ++ map (sub_years startIndex years) l)%list.
Proof.
  induction l as [|i l IH]; intros d acc; simpl.
  - now rewrite app_nil_r.
  - rewrite IH, map_app. simpl. rewrite <- app_assoc. reflexivity.
Qed.

Lemma total_years_map (ps : list DashaPeriod) :
  total_years ps = fold_left add (map dasha_years ps) (Num 0).
Proof.
  unfold total_years. generalize (Num 0).
  induction ps as [|p ps IH]; intros a; simpl; [reflexivity|apply IH].
Qed.

Ltac eval_closed :=
  repeat match goal with
    | |- context [getNakshatraLord ?a] =>
        let v := eval vm_compute in (getNakshatraLord a) in
        change (getNakshatraLord a) with v
    | |- context [Js.indexOf ?a ?b] =>
        let v := eval vm_compute in (Js.indexOf a b) in
        change (Js.indexOf a b) with v
    | |- context [(?a + of_Z ?i) %% ?m] =>
        let v := eval vm_compute in ((a + of_Z i) %% m) in
        change ((a + of_Z i) %% m) with v
    | |- context [Js.array_get ?a ?b] =>
        let v := eval vm_compute in (Js.array_get a b) in
        change (Js.array_get a b) with v
    | |- context [Js.get_opt ?a ?b] =>
        let v := eval vm_compute in (Js.get_opt a b) in
        change (Js.get_opt a b) with v
    | |- context [Qeq_bool ?a ?b] =>
        let v := eval vm_compute in (Qeq_bool a b) in
        change (Qeq_bool a b) with v
    end.

(** Whatever the lord of the main period, the nine sub-periods share out
    its years in the proportions of the 120-year cycle. *)
Lemma antar_sum (lord : string) (d : Js.Date) (y : Q) :
  In lord NAKSHATRA_LORDS ->
  total_years
    (calculateAntarDasha addYears addMonths format (Some lord) d (Num y))
  =n= Num y.
Proof.
  intros Hin. rewrite total_years_map. unfold calculateAntarDasha.
  rewrite antar_fold_years. simpl map at 1. rewrite app_nil_l.
  simpl in Hin.
  repeat (destruct Hin as [<- | Hin]); try contradiction.
  all: cbv [nine map sub_years]; eval_closed.
  all: cbv [of_undefined fold_left mul add div lift2]; eval_closed.
  all: cbv iota; unfold num_eq; field.
Qed.

Lemma dasha_fold_Forall (P : DashaPeriod -> Prop)
  (startLord : option string) (balance : number) (l : list Z) :
  (forall d found i,
      In i l ->
      P (dasha_entry addYears addMonths format startLord balance d found i)) ->
  forall d found acc,
    Forall P acc ->
    Forall P
      (snd (fold_left (dasha_step addYears addMonths format startLord balance)
              l (d, found, acc))).
Proof.
  induction l as [|i l IH]; intros HP d found acc Hacc; simpl; [exact Hacc|].
  apply IH.
  - intros d' f' j Hj. apply HP. now right.
  - apply Forall_app. split; [exact Hacc|].
    constructor; [|constructor]. apply (HP d found i). now left.
Qed.

Lemma dasha_fold_length (startLord : option string) (balance : number)
  (l : list Z) :
  forall d found acc,
    List.length
      (snd (fold_left (dasha_step addYears addMonths format startLord balance)
              l (d, found, acc)))
    = (List.length acc + List.length l)%nat.
Proof.
  induction l as [|i l IH]; intros d found acc; simpl; [lia|].
  rewrite IH, length_app. simpl. lia.
Qed.

Lemma within_tolerance_of_eq (a b : number) :
  a =n= b -> is_nan b = false ->
  (Math.abs (a - b) <=? Num (1 # 1000000000)) = true.
Proof.
  destruct a as [x|], b as [y|];
    unfold num_eq, is_nan, Math.abs, sub, le, lift1, lift2; try easy.
  intros E _. apply Qle_bool_iff. apply Qabs_Qle_condition.
  split; lra.
Qed.

Lemma entry_within_tolerance (lord : string) (y : Q) (d : Js.Date)
  (s e : string) :
  In lord NAKSHATRA_LORDS ->
  within_tolerance
    (mkDashaPeriod (Some lord) s e (Num y)
       (calculateAntarDasha addYears addMonths format (Some lord) d (Num y))).
Proof.
  intros Hin. unfold within_tolerance. simpl dasha_subPeriods.
  simpl dasha_years. apply within_tolerance_of_eq; [|reflexivity].
  now apply antar_sum.
Qed.

Lemma nakshatra_cases (k : Z) :
  (1 <= k <= 27)%Z -> In k (map Z.of_nat (seq 1 27)).
Proof.
  intros Hk. apply in_map_iff. exists (Z.to_nat k). split; [lia|].
  apply in_seq. lia.
Qed.

(** The balance of the first period is a finite number of years. *)
Lemma balance_finite (k : Z) (deg : Q) :
  (1 <= k <= 27)%Z ->
  exists b : Q, calculateDashaBalance (of_Z k) (Num deg) = Num b.
Proof.
  intros Hk. pose proof (nakshatra_cases k Hk) as Hin. simpl in Hin.
  repeat (destruct Hin as [<- | Hin]); try contradiction.
  all: unfold calculateDashaBalance; eval_closed.
  all: eexists; reflexivity.
Qed.

(** C5.  For a birth nakshatra in 1..27 and any degree residual,
    [calculateDashaPeriods] produces nine top-level periods, and in each of
    them the [years] of the nine sub-periods of [calculateAntarDasha] sum to
    the period's own [years] to within 1e-9 (exactly, in exact
    arithmetic). *)
Theorem sub_periods_sum_to_parent (birthDate : Js.Date) (k : Z) (deg : Q) :
  (1 <= k <= 27)%Z ->
  let periods :=
    calculateDashaPeriods addYears addMonths format birthDate
      (of_Z k) (Num deg) in
  List.length periods = 9%nat
  /\ Forall within_tolerance periods
  /\ Forall (fun p => List.length (dasha_subPeriods p) = 9%nat) periods.
Proof.
  intros Hk periods. subst periods. unfold calculateDashaPeriods.
  split; [|split].
  - rewrite dasha_fold_length. reflexivity.
  - destruct (balance_finite k deg Hk) as [b ->].
    apply dasha_fold_Forall; [|constructor].
    intros d found i Hi.
    pose proof (nakshatra_cases k Hk) as Hin. simpl in Hin. simpl in Hi.
    repeat (destruct Hin as [<- | Hin]); try contradiction.
    all: repeat (destruct Hi as [<- | Hi]); try contradiction.
    all: unfold dasha_entry; eval_closed.
    all: destruct found; cbv [of_undefined].
    all: apply entry_within_tolerance; simpl; tauto.
  - apply dasha_fold_Forall; [|constructor].
    intros d found i _. unfold dasha_entry. cbn [dasha_subPeriods].
    unfold calculateAntarDasha.
    rewrite <- (length_map dasha_years), antar_fold_years. reflexivity.
Qed.

End Dasha.

(** C5 at work: nakshatra 8 with 1 degree 40 minutes traversed. *)
Lemma sub_periods_sum_to_parent_witness :
  (1 <= 8 <= 27)%Z
  /\ (let periods :=
        DashaCalculator.calculateDashaPeriods Examples.stillDate
          Examples.stillDate Examples.blankFormat Examples.noon_2000_01_01
          (of_Z 8) (Num (5 # 3)) in
      List.length periods = 9%nat
      /\ Forall within_tolerance periods
      /\ Forall (fun p => List.length (dasha_subPeriods p) = 9%nat) periods).
Proof.
  split; [lia|].
  apply (sub_periods_sum_to_parent Examples.stillDate Examples.stillDate
           Examples.blankFormat Examples.noon_2000_01_01 8 (5 # 3)).
  lia.
Defined.

(** There the birth period is Saturn's, with 16.625 of its 19 years left. *)
Lemma saturn_balance_example :
  Forall2 (fun got want => fst got = fst want /\ snd got =n= snd want)
    (map (fun p => (dasha_planet p, dasha_years p))
       (firstn 2
          (DashaCalculator.calculateDashaPeriods Examples.stillDate
             Examples.stillDate Examples.blankFormat
             Examples.noon_2000_01_01 (of_Z 8) (Num (5 # 3)))))
    [(Some "saturn"%string, Num (16625 # 1000));
     (Some "mercury"%string, Num 17)].
Proof.
  repeat constructor; vm_compute; reflexivity.
Qed.

(** ** House cusps *)

Section Cusps.

Import HouseCalculator.
Local Open Scope string_scope.
Local Open Scope js_scope.

Lemma array_set_read {A : Type} (i : nat) (v : A) :
  forall arr : list (option A),
    nth_error (Js.array_set arr i v) i = Some (Some v).
Proof.
  induction i as [|i IH]; intros [|x arr]; simpl; auto.
Qed.

Lemma add_NaN_r (a : number) : a + NaN = NaN.
Proof. now destruct a. Qed.

Lemma sub_NaN_r (a : number) : a - NaN = NaN.
Proof. now destruct a. Qed.

(** C8, as stated, fails: at latitude 80 degrees (J2000.0, longitude 0)
    [calculatePlacidusHouses] ends exactly as it does on the equator, by the
    error for an undeclared identifier, whatever the trigonometric functions
    return and whether or not [AstronomicalCalculator] is bound; when it is
    bound, the identifier is [cosObl] of [calculateAscendant].  No condition
    of its own marks the polar latitude. *)
Lemma polar_latitude_has_no_condition_of_its_own :
  (forall (PI : number) (sin cos tan asin acos : number -> number)
          (atan2 : number -> number -> number)
          (binding : option (number -> number)),
      exists name : string,
        calculatePlacidusHouses PI sin cos tan asin acos atan2 binding
          (Num 2451545) (Num 80) (Num 0)
        = Throw (ReferenceError name)
        /\ calculatePlacidusHouses PI sin cos tan asin acos atan2 binding
             (Num 2451545) (Num 0) (Num 0)
           = Throw (ReferenceError name))
  /\ (forall (PI : number) (sin cos tan asin acos : number -> number)
             (atan2 : number -> number -> number),
         calculatePlacidusHouses PI sin cos tan asin acos atan2
           (Some AstronomicalCalculator.calculateObliquityOfEcliptic)
           (Num 2451545) (Num 80) (Num 0)
         = Throw (ReferenceError "cosObl")).
Proof.
  split.
  - intros PI sin cos tan asin acos atan2 [f|].
    + exists "cosObl". split; reflexivity.
    + exists "AstronomicalCalculator". split; reflexivity.
  - intros. reflexivity.
Qed.

(** C8, amended.  The semi-arc step has no guard on the latitude and no
    error of its own: for every latitude [calculateIntermediate] stores
    [normalizeAngle(RAMC + (ra < 180 ? a : 360 - a))] at index
    [houseNum - 1], and when the angle [a] that [asin] and [acos] produce is
    NaN the stored cusp is NaN. *)
Theorem intermediate_cusp_is_unguarded
  (PI : number) (sin cos asin acos : number -> number)
  (RAMC obliquity latitude : number) (houses : list (option number))
  (houseNum : positive) (fraction : number) :
  let a :=
    intermediate_arc PI sin cos asin acos RAMC obliquity latitude fraction in
  let cusp :=
    normalizeAngle
      (RAMC + (if RAMC + fraction * Num 90 <? Num 180 then a
               else Num 360 - a)) in
  nth_error
    (calculateIntermediate PI sin cos asin acos RAMC obliquity latitude
       houses houseNum fraction)
    (Pos.to_nat houseNum - 1)
  = Some (Some cusp)
  /\ implb (is_nan a) (is_nan cusp) = true.
Proof.
  intros a cusp. split.
  - unfold calculateIntermediate. apply array_set_read.
  - subst cusp. destruct a as [q|] eqn:Ea; [reflexivity|].
    cbn [is_nan implb].
    destruct (RAMC + fraction * Num 90 <? Num 180);
      rewrite ?sub_NaN_r, add_NaN_r; reflexivity.
Qed.

End Cusps.

(** * Further properties of the calculators *)

(** ** Angles *)

Section Angles.

Local Open Scope js_scope.
Local Open Scope Q_scope.

Lemma norm360_unique (q r : Q) (k : Z) :
  0 <= r < 360 -> r == q - 360 * inject_Z k -> norm360 q == r.
Proof.
  intros [Lo Hi] E. destruct (norm360_spec q) as [S _]. rewrite S.
  assert (Qfloor (q / 360) = k) as ->; [|lra].
  apply Qfloor_unique.
  - apply Qle_shift_div_l; lra.
  - apply Qlt_shift_div_r; [lra|]. rewrite inject_Z_plus.
    change (inject_Z 1) with 1. lra.
Qed.

Lemma norm360_comp (p q : Q) : p == q -> norm360 p == norm360 q.
Proof.
  intros E. destruct (norm360_spec q) as [S B].
  apply (norm360_unique p _ (Qfloor (q / 360))); [exact B|].
  rewrite S, E. reflexivity.
Qed.


(** X1.  On every finite angle [normalizeAngle] returns the one value of
    [0,360) that differs from the angle by a whole number of turns; it is
    idempotent and unchanged by adding whole turns to its argument. *)
Theorem normalizeAngle_range_idempotent_periodic (q : Q) (k : Z) :
  (exists (r : Q) (t : Z),
      AstrologyCalculator.normalizeAngle (Num q) = Num r
      /\ 0 <= r < 360 /\ r == q + 360 * inject_Z t)
  /\ AstrologyCalculator.normalizeAngle
       (AstrologyCalculator.normalizeAngle (Num q))
     =n= AstrologyCalculator.normalizeAngle (Num q)
  /\ AstrologyCalculator.normalizeAngle (Num (q + 360 * inject_Z k))
     =n= AstrologyCalculator.normalizeAngle (Num q).
Proof.
  rewrite !normalizeAngle_Num. destruct (norm360_spec q) as [S B].
  split; [|split].
  - exists (norm360 q), (- Qfloor (q / 360))%Z.
    split; [reflexivity|]. split; [exact B|].
    rewrite inject_Z_opp. lra.
  - unfold num_eq.
    apply (norm360_unique _ _ 0%Z); [exact B|].
    change (inject_Z 0) with 0. lra.
  - unfold num_eq.
    apply (norm360_unique _ _ (Qfloor (q / 360) + k)%Z); [exact B|].
    rewrite S, inject_Z_plus. lra.
Qed.


(** X3.  For every finite longitude [calculateSign] is a whole number [s]
    of [1,12], and it is [s] exactly on the normalized longitudes of
    [[30 (s - 1), 30 s)]: the signs change at the multiples of 30. *)
Theorem calculateSign_boundaries (q : Q) :
  exists (s : Z) (r : Q),
    AstrologyCalculator.calculateSign (Num q) =n= of_Z s
    /\ (1 <= s <= 12)%Z
    /\ AstrologyCalculator.normalizeAngle (Num q) = Num r
    /\ 30 * (inject_Z s - 1) <= r < 30 * inject_Z s.
Proof.
  exists (Qfloor (norm360 q / 30) + 1)%Z, (norm360 q).
  rewrite calculateSign_Num, normalizeAngle_Num.
  destruct (norm360_spec q) as [_ B].
  pose proof (floor_thirty_range _ B) as R.
  destruct (Qfloor_bounds (norm360 q / 30)) as [L U].
  assert (norm360 q == (norm360 q / 30) * 30) as E by (field; lra).
  split; [|split; [lia|split; [reflexivity|]]].
  - unfold of_Z, num_eq. rewrite inject_Z_plus. reflexivity.
  - rewrite inject_Z_plus. change (inject_Z 1) with 1. split; lra.
Qed.

End Angles.

(** ** Nakshatra, pada and degrees *)

Section Divisions.

Local Open Scope js_scope.
Local Open Scope Q_scope.




End Divisions.

(** ** Separation of two positions *)

Section Separation.

Local Open Scope string_scope.
Local Open Scope js_scope.
Local Open Scope Q_scope.

Lemma abs_sub_comm (a b : number) : Math.abs (a - b) = Math.abs (b - a).
Proof.
  destruct a as [x|], b as [y|]; try reflexivity.
  change (Num (Qabs (x - y)) = Num (Qabs (y - x))).
  f_equal. apply Qabs_Qminus.
Qed.

(** X6.  [isConjunction] and [AstrologyCalculator.calculateAspect] do not
    depend on the order of the two positions, and the angle that
    [calculateAspect] returns is never above 180. *)
Theorem separation_is_symmetric (p1 p2 : PlanetaryPosition)
  (orb : option number) :
  AstrologyCalculator.isConjunction p1 p2 orb
  = AstrologyCalculator.isConjunction p2 p1 orb
  /\ AstrologyCalculator.calculateAspect p1 p2
     = AstrologyCalculator.calculateAspect p2 p1
  /\ (Num 180 <? AstrologyCalculator.calculateAspect p1 p2) = false.
Proof.
  unfold AstrologyCalculator.isConjunction,
    AstrologyCalculator.calculateAspect.
  rewrite (abs_sub_comm (longitude p2) (longitude p1)).
  split; [reflexivity|]. split; [reflexivity|].
  destruct (longitude p1) as [x|], (longitude p2) as [y|]; try reflexivity.
  change (Math.abs (Num x - Num y)) with (Num (Qabs (x - y))).
  set (d := Qabs (x - y)).
  change (gt (Num d) (Num 180)) with (negb (Qle_bool d 180)).
  change (Num 360 - Num d)%js with (Num (360 - d)).
  destruct (Qle_bool d 180) eqn:C; cbn [negb].
  - change (negb (Qle_bool d 180) = false). rewrite C. reflexivity.
  - change (negb (Qle_bool (360 - d) 180) = false).
    assert (~ d <= 180) as C'.
    { intros X. apply Qle_bool_iff in X. congruence. }
    apply Qnot_le_lt in C'.
    assert (Qle_bool (360 - d) 180 = true) as ->; [|reflexivity].
    apply Qle_bool_iff. lra.
Qed.

(** X7.  [isConjunction(p1, p2, orb)] holds exactly when the angle of
    [calculateAspect(p1, p2)] is at most the orb (10 when left out). *)
Theorem isConjunction_is_aspect_within_orb (p1 p2 : PlanetaryPosition)
  (orb : option number) :
  AstrologyCalculator.isConjunction p1 p2 orb
  = (AstrologyCalculator.calculateAspect p1 p2
     <=? match orb with Some o => o | None => Num 10 end)%js.
Proof.
  unfold AstrologyCalculator.isConjunction,
    AstrologyCalculator.calculateAspect.
  set (o := match orb with Some o => o | None => Num 10 end).
  destruct (longitude p1) as [x|], (longitude p2) as [y|]; try reflexivity.
  change (Math.abs (Num x - Num y)) with (Num (Qabs (x - y))).
  set (d := Qabs (x - y)).
  change (Num 360 - Num d)%js with (Num (360 - d)).
  destruct o as [r|]; [|unfold gt, lt; destruct (negb _); reflexivity].
  unfold gt, lt, le.
  destruct (Qle_bool d 180) eqn:C; cbn [negb].
  - apply Qle_bool_iff in C.
    destruct (Qle_bool d r) eqn:D; [reflexivity|]. cbn [Datatypes.orb].
    destruct (Qle_bool (360 - d) r) eqn:D'; [|reflexivity].
    apply Qle_bool_iff in D'.
    assert (Qle_bool d r = true) as X by (apply Qle_bool_iff; lra).
    congruence.
  - assert (~ d <= 180) as C'.
    { intros X. apply Qle_bool_iff in X. congruence. }
    apply Qnot_le_lt in C'.
    destruct (Qle_bool d r) eqn:D; [|reflexivity]. cbn [Datatypes.orb].
    apply Qle_bool_iff in D. symmetry. apply Qle_bool_iff. lra.
Qed.

End Separation.

(** ** Lords and strength *)

Section Lords.

Local Open Scope string_scope.
Local Open Scope js_scope.

(** X8.  [getSignLord] names one of the seven planets for each of the
    signs 1 to 12, and returns the empty string for every other number:
    a sign out of range, a number that is not whole, NaN. *)
Theorem getSignLord_covers_the_twelve_signs :
  Forall
    (fun s : Z =>
       In (AstrologyCalculator.getSignLord (of_Z s))
         ["sun"; "moon"; "mars"; "mercury"; "jupiter"; "venus"; "saturn"])
    [1; 2; 3; 4; 5; 6; 7; 8; 9; 10; 11; 12]%Z
  /\ forall sign : number,
       AstrologyCalculator.getSignLord sign = ""
       \/ exists s : Z, (1 <= s <= 12)%Z /\ sign =n= of_Z s.
Proof.
  split.
  - repeat (apply Forall_cons; [vm_compute; tauto|]). apply Forall_nil.
  - intros [q|]; [|left; reflexivity].
    unfold AstrologyCalculator.getSignLord, AstrologyCalculator.get_number.
    destruct (Qeq_bool q (inject_Z (Qfloor q))) eqn:E; [|left; reflexivity].
    apply Qeq_bool_iff in E.
    unfold AstrologyCalculator.sign_lords.
    cbn [AstrologyCalculator.get_Z].
    repeat match goal with
      | |- context [Z.eqb (Qfloor q) ?k] =>
          destruct (Z.eqb_spec (Qfloor q) k) as [H|_];
          [right; exists k; split; [lia|rewrite <- H; exact E]|]
      end.
    left. reflexivity.
Qed.

(** X9.  [calculatePlanetStrength] is a multiple of 5 between 0 and 85:
    the four bonuses add up to 85 at most, so the cap at 100 is never
    reached. *)
Theorem calculatePlanetStrength_range (position : PlanetaryPosition) :
  exists n : Z,
    AstrologyCalculator.calculatePlanetStrength position =n= of_Z n
    /\ (0 <= n <= 85)%Z /\ (n mod 5 = 0)%Z.
Proof.
  unfold AstrologyCalculator.calculatePlanetStrength.
  destruct ((house position === Num 1) || (house position === Num 10));
    destruct (String.eqb _ _);
    destruct (gt (degree position) (Num 10) && (degree position <? Num 20));
    destruct (negb (isRetrograde position)).
  all: first
         [ exists 0%Z; split; [vm_compute; reflexivity|split; [lia|reflexivity]]
         | exists 15%Z; split; [vm_compute; reflexivity|split; [lia|reflexivity]]
         | exists 20%Z; split; [vm_compute; reflexivity|split; [lia|reflexivity]]
         | exists 30%Z; split; [vm_compute; reflexivity|split; [lia|reflexivity]]
         | exists 35%Z; split; [vm_compute; reflexivity|split; [lia|reflexivity]]
         | exists 40%Z; split; [vm_compute; reflexivity|split; [lia|reflexivity]]
         | exists 45%Z; split; [vm_compute; reflexivity|split; [lia|reflexivity]]
         | exists 50%Z; split; [vm_compute; reflexivity|split; [lia|reflexivity]]
         | exists 55%Z; split; [vm_compute; reflexivity|split; [lia|reflexivity]]
         | exists 65%Z; split; [vm_compute; reflexivity|split; [lia|reflexivity]]
         | exists 70%Z; split; [vm_compute; reflexivity|split; [lia|reflexivity]]
         | exists 85%Z; split; [vm_compute; reflexivity|split; [lia|reflexivity]] ].
Qed.

End Lords.

(** ** Nakshatra lords and the sidereal shift *)

Section NakshatraLords.

Local Open Scope string_scope.
Local Open Scope js_scope.
Local Open Scope Q_scope.

Lemma array_get_whole {A : Type} (arr : list A) (q : Q) (j : Z) :
  q == inject_Z j -> (0 <= j)%Z ->
  Js.array_get arr (Num q) = nth_error arr (Z.to_nat j).
Proof.
  intros E Hj. unfold Js.array_get.
  assert (Qfloor q = j) as F.
  { rewrite (Qfloor_comp _ _ E). apply Qfloor_Z. }
  rewrite F.
  assert (Qeq_bool q (inject_Z j) = true) as -> by now apply Qeq_bool_iff.
  assert ((0 <=? j)%Z = true) as -> by now apply Z.leb_le.
  reflexivity.
Qed.

Lemma Qrem_nine_whole (a : Z) :
  (0 <= a)%Z -> Qrem (inject_Z a) 9 == inject_Z (a mod 9).
Proof.
  intros Ha.
  assert (0 <= inject_Z a) as P.
  { change 0 with (inject_Z 0). now rewrite <- Zle_Qle. }
  destruct (Qrem_nonneg (inject_Z a) 9 eq_refl P) as [E _]. rewrite E.
  change 9 with (inject_Z 9). rewrite <- Zdiv_Qdiv.
  rewrite Z.mod_eq by lia.
  unfold Z.sub. rewrite inject_Z_plus, inject_Z_opp, inject_Z_mult.
  reflexivity.
Qed.

Lemma nakshatra_index (k : Z) :
  (1 <= k)%Z ->
  (of_Z k - Num 1) %% Num 9 =n= of_Z ((k - 1) mod 9).
Proof.
  intros Hk.
  change ((of_Z k - Num 1) %% Num 9)%js
    with (Num (Qrem (inject_Z k - 1) 9)).
  unfold of_Z, num_eq.
  assert (inject_Z k - 1 == inject_Z (k - 1)) as E.
  { unfold Z.sub. rewrite inject_Z_plus, inject_Z_opp. reflexivity. }
  assert (0 <= inject_Z k - 1) as P.
  { rewrite E. change 0 with (inject_Z 0). rewrite <- Zle_Qle. lia. }
  destruct (Qrem_nonneg (inject_Z k - 1) 9 eq_refl P) as [R _].
  rewrite R, <- Qrem_nine_whole by lia.
  assert (0 <= inject_Z (k - 1)) as P' by (rewrite <- E; exact P).
  destruct (Qrem_nonneg (inject_Z (k - 1)) 9 eq_refl P') as [R' _].
  rewrite R'.
  assert (Qfloor ((inject_Z k - 1) / 9) = Qfloor (inject_Z (k - 1) / 9))
    as ->.
  { apply Qfloor_comp. rewrite E. reflexivity. }
  rewrite E. reflexivity.
Qed.

(** X10.  For every whole nakshatra number [k] from 1 on, both copies of
    [getNakshatraLord] return the lord at index [(k - 1) mod 9] of the cycle
    ketu, venus, sun, moon, mars, rahu, jupiter, saturn, mercury; the lord
    repeats every nine nakshatras. *)
Theorem getNakshatraLord_cycles (k : Z) :
  (1 <= k)%Z ->
  exists lord : string,
    nth_error DashaCalculator.NAKSHATRA_LORDS (Z.to_nat ((k - 1) mod 9))
    = Some lord
    /\ AstrologyCalculator.getNakshatraLord (of_Z k) = Some lord
    /\ DashaCalculator.getNakshatraLord (of_Z k) = Some lord
    /\ DashaCalculator.getNakshatraLord (of_Z (k + 9)) = Some lord.
Proof.
  intros Hk.
  pose proof (Z.mod_pos_bound (k - 1) 9 eq_refl) as B.
  assert (forall k' : Z,
             (1 <= k')%Z -> ((k' - 1) mod 9 = (k - 1) mod 9)%Z ->
             DashaCalculator.getNakshatraLord (of_Z k')
             = nth_error DashaCalculator.NAKSHATRA_LORDS
                 (Z.to_nat ((k - 1) mod 9))) as G.
  { intros k' Hk' Em. unfold DashaCalculator.getNakshatraLord.
    pose proof (nakshatra_index k' Hk') as I.
    destruct ((of_Z k' - Num 1) %% Num 9)%js as [q|] eqn:Eq; [|contradiction].
    unfold of_Z, num_eq in I. rewrite Em in I.
    apply array_get_whole; [exact I|lia]. }
  destruct (nth_error DashaCalculator.NAKSHATRA_LORDS
              (Z.to_nat ((k - 1) mod 9))) as [lord|] eqn:N.
  - exists lord. split; [reflexivity|]. split; [|split].
    + change (AstrologyCalculator.getNakshatraLord (of_Z k))
        with (DashaCalculator.getNakshatraLord (of_Z k)).
      rewrite (G k Hk eq_refl). reflexivity.
    + rewrite (G k Hk eq_refl). reflexivity.
    + rewrite (G (k + 9)%Z); [reflexivity|lia|].
      replace (k + 9 - 1)%Z with (k - 1 + 1 * 9)%Z by lia.
      apply Z.mod_add. lia.
  - exfalso. apply nth_error_None in N.
    change (List.length DashaCalculator.NAKSHATRA_LORDS) with 9%nat in N.
    lia.
Qed.

(** X10 at work: nakshatra 27 is Mercury's, as nakshatra 9 and 18 are. *)
Lemma getNakshatraLord_cycles_witness :
  (1 <= 27)%Z
  /\ exists lord : string,
       nth_error DashaCalculator.NAKSHATRA_LORDS
         (Z.to_nat ((27 - 1) mod 9))
       = Some lord
       /\ AstrologyCalculator.getNakshatraLord (of_Z 27) = Some lord
       /\ DashaCalculator.getNakshatraLord (of_Z 27) = Some lord
       /\ DashaCalculator.getNakshatraLord (of_Z (27 + 9)) = Some lord.
Proof.
  split; [lia|]. apply (getNakshatraLord_cycles 27). lia.
Defined.

(** X11.  [tropicalToSidereal] returns a value of [0,360) on finite
    arguments, and two successive shifts are the shift by the sum:
    [tropicalToSidereal(tropicalToSidereal(l, a), b)]
    is [tropicalToSidereal(l, a + b)]. *)
Theorem tropicalToSidereal_composes (l a b : Q) :
  (exists r : Q,
      AstrologyCalculator.tropicalToSidereal (Num l) (Num a) = Num r
      /\ 0 <= r < 360)
  /\ AstrologyCalculator.tropicalToSidereal
       (AstrologyCalculator.tropicalToSidereal (Num l) (Num a)) (Num b)
     =n= AstrologyCalculator.tropicalToSidereal (Num l) (Num (a + b)).
Proof.
  change (AstrologyCalculator.tropicalToSidereal (Num l) (Num a))
    with (Num (norm360 (l - a))).
  change (AstrologyCalculator.tropicalToSidereal (Num (norm360 (l - a)))
            (Num b))
    with (Num (norm360 (norm360 (l - a) - b))).
  change (AstrologyCalculator.tropicalToSidereal (Num l) (Num (a + b)))
    with (Num (norm360 (l - (a + b)))).
  destruct (norm360_spec (l - a)) as [S1 B1].
  destruct (norm360_spec (l - (a + b))) as [S2 B2].
  split.
  - exists (norm360 (l - a)). split; [reflexivity|exact B1].
  - unfold num_eq.
    apply (norm360_unique _ _
             (Qfloor ((l - (a + b)) / 360) - Qfloor ((l - a) / 360))%Z);
      [exact B2|].
    unfold Z.sub. rewrite inject_Z_plus, inject_Z_opp. lra.
Qed.

End NakshatraLords.

(** ** Transit projection *)

Section TransitFields.

Local Open Scope string_scope.
Local Open Scope js_scope.
Local Open Scope Q_scope.

(** X12.  [daysBetween] does not depend on the order of the two dates; it
    is a whole number of days, never negative, within half a day of the
    elapsed time, and it is 0 exactly when the dates are less than twelve
    hours apart. *)
Theorem daysBetween_symmetric_whole (date1 date2 : Js.Date) :
  TransitCalculator.daysBetween date1 date2
  = TransitCalculator.daysBetween date2 date1
  /\ exists n : Z,
       TransitCalculator.daysBetween date1 date2 = of_Z n
       /\ (0 <= n)%Z
       /\ (86400000 * n - 43200000
           <= Z.abs (Js.getTime date2 - Js.getTime date1)
           < 86400000 * n + 43200000)%Z
       /\ (n = 0
           <-> Z.abs (Js.getTime date2 - Js.getTime date1) < 43200000)%Z.
Proof.
  rewrite !daysBetween_wholeDays. split.
  - unfold wholeDays.
    replace (Z.abs (Js.getTime date1 - Js.getTime date2))
      with (Z.abs (Js.getTime date2 - Js.getTime date1)) by lia.
    reflexivity.
  - exists (wholeDays (Js.getTime date2 - Js.getTime date1)).
    split; [reflexivity|]. unfold wholeDays.
    set (a := Z.abs (Js.getTime date2 - Js.getTime date1)).
    assert (0 <= a)%Z as Ha by (subst a; lia).
    pose proof (Z.mul_div_le (a + 43200000) 86400000 eq_refl) as Lo.
    pose proof (Z.mul_succ_div_gt (a + 43200000) 86400000 eq_refl) as Hi.
    set (n := ((a + 43200000) / 86400000)%Z) in *.
    assert (0 <= n)%Z as Hn by (subst n; apply Z.div_pos; lia).
    split; [exact Hn|]. split; [lia|]. split; intros H; lia.
Qed.




(** X13.  For a planet name that [DAILY_MOTION] does not list, the seven
    recomputed fields of the projected position are all NaN; nothing is
    thrown and the other fields are still copied. *)
Theorem transit_of_unlisted_planet_is_NaN
  (birthPosition : PlanetaryPosition) (transitDate birthDate : Js.Date) :
  Js.get (planet birthPosition) TransitCalculator.DAILY_MOTION = None ->
  let transit :=
    TransitCalculator.calculateTransitPosition birthPosition transitDate
      birthDate in
  longitude transit = NaN /\ sign transit = NaN /\ nakshatra transit = NaN
  /\ nakshatraPada transit = NaN /\ degree transit = NaN
  /\ minutes transit = NaN /\ house transit = NaN.
Proof.
  intros Hm transit. subst transit.
  unfold TransitCalculator.calculateTransitPosition.
  rewrite Hm, daysBetween_wholeDays.
  cbn [longitude sign nakshatra nakshatraPada degree minutes house
         of_undefined].
  destruct (longitude birthPosition) as [l|]; repeat split; reflexivity.
Qed.

(** X13 at work: a position named "ascendant". *)
Lemma transit_of_unlisted_planet_is_NaN_witness :
  Js.get (planet (Examples.natal "ascendant" (Num 0) (Num 0)))
    TransitCalculator.DAILY_MOTION
  = None
  /\ (let transit :=
        TransitCalculator.calculateTransitPosition
          (Examples.natal "ascendant" (Num 0) (Num 0))
          Examples.noon_2000_01_31 Examples.noon_2000_01_01 in
      longitude transit = NaN /\ sign transit = NaN
      /\ nakshatra transit = NaN /\ nakshatraPada transit = NaN
      /\ degree transit = NaN /\ minutes transit = NaN
      /\ house transit = NaN).
Proof.
  split; [reflexivity|].
  apply (transit_of_unlisted_planet_is_NaN
           (Examples.natal "ascendant" (Num 0) (Num 0))
           Examples.noon_2000_01_31 Examples.noon_2000_01_01).
  reflexivity.
Defined.

(** X15.  Looking a body up in the result of [calculateAllTransits] is
    looking it up in the chart and projecting what is found: a body absent
    from the chart is absent from the result, the entry under "ascendant"
    is the natal one, and every other entry is its
    [calculateTransitPosition]; the keys come in the chart's order. *)
Theorem calculateAllTransits_lookup (birthChart : BirthChart)
  (transitDate : Js.Date) (key : string) :
  Js.get key (TransitCalculator.calculateAllTransits birthChart transitDate)
  = match Js.get key (planets birthChart) with
    | None => None
    | Some position =>
        Some (if String.eqb key "ascendant" then position
              else TransitCalculator.calculateTransitPosition position
                     transitDate (datetime birthChart))
    end
  /\ map fst (TransitCalculator.calculateAllTransits birthChart transitDate)
     = map fst (planets birthChart).
Proof.
  unfold TransitCalculator.calculateAllTransits.
  induction (planets birthChart) as [|[k position] rest [IH1 IH2]];
    [split; reflexivity|].
  split.
  - cbn [map Js.get].
    destruct (String.eqb k "ascendant") eqn:Ea; cbn [negb Js.get];
      destruct (String.eqb key k) eqn:Ek.
    + apply String.eqb_eq in Ek. subst key. rewrite Ea. reflexivity.
    + exact IH1.
    + apply String.eqb_eq in Ek. subst key. rewrite Ea. reflexivity.
    + exact IH1.
  - cbn [map]. rewrite IH2.
    destruct (negb (String.eqb k "ascendant")); reflexivity.
Qed.

End TransitFields.

(** ** Transit aspects *)

Section TransitAspects.

Import TransitCalculator.
Local Open Scope string_scope.
Local Open Scope js_scope.

(** The five canonical angles with their names, at a given orb. *)
Lemma calculateAspect_table (pos1 pos2 : PlanetaryPosition)
  (maxOrb : option number) :
  calculateAspect pos1 pos2 maxOrb
  = first_aspect
      (Math.abs (longitude pos1 - longitude pos2) %% Num 360)
      (map (fun entry : number * string =>
              mkAspectDef (fst entry) (snd entry)
                (match maxOrb with Some o => o | None => Num 6 end))
         [(Num 0, "conjunction"); (Num 60, "sextile"); (Num 90, "square");
          (Num 120, "trine"); (Num 180, "opposition")]).
Proof. reflexivity. Qed.

(** The loop returns the first entry of the table that is within its orb,
    with the distance to its angle, and nothing when there is none. *)
Lemma first_aspect_spec (angle : number) (aspects : list AspectDef) :
  match first_aspect angle aspects with
  | Some a =>
      exists before def after,
        aspects = (before ++ def :: after)%list
        /\ Forall
             (fun d => (Math.abs (angle - def_angle d) <=? def_maxOrb d)
                       = false)
             before
        /\ (Math.abs (angle - def_angle def) <=? def_maxOrb def) = true
        /\ a = mkAspect (def_type def) (Math.abs (angle - def_angle def))
  | None =>
      Forall
        (fun d => (Math.abs (angle - def_angle d) <=? def_maxOrb d) = false)
        aspects
  end.
Proof.
  induction aspects as [|d rest IH]; cbn [first_aspect]; [constructor|].
  destruct (Math.abs (angle - def_angle d) <=? def_maxOrb d) eqn:W.
  - exists [], d, rest. repeat split; [constructor|exact W].
  - destruct (first_aspect angle rest) as [a|].
    + destruct IH as (before & def & after & E & B & Wd & Ea).
      exists (d :: before), def, after. subst rest.
      repeat split; [constructor; assumption|exact Wd|exact Ea].
    + constructor; assumption.
Qed.

(** X16.  [TransitCalculator.calculateAspect] does not depend on the
    order of the two positions. *)
Theorem transit_aspect_is_symmetric (pos1 pos2 : PlanetaryPosition)
  (maxOrb : option number) :
  calculateAspect pos1 pos2 maxOrb = calculateAspect pos2 pos1 maxOrb.
Proof.
  rewrite !calculateAspect_table.
  rewrite (abs_sub_comm (longitude pos1) (longitude pos2)). reflexivity.
Qed.

(** X17.  With [angle = |lon1 - lon2| % 360] and the orb [maxOrb] (6 when
    left out), [TransitCalculator.calculateAspect] returns the first of
    conjunction (0), sextile (60), square (90), trine (120) and opposition
    (180) whose angle is within the orb of [angle], with
    [orb = |angle - canonical|]; every earlier one is outside the orb; and
    it returns nothing exactly when all five are outside the orb. *)
Theorem transit_aspect_is_first_within_orb (pos1 pos2 : PlanetaryPosition)
  (maxOrb : option number) :
  let limit := match maxOrb with Some o => o | None => Num 6 end in
  let angle := Math.abs (longitude pos1 - longitude pos2) %% Num 360 in
  let table :=
    [(Num 0, "conjunction"); (Num 60, "sextile"); (Num 90, "square");
     (Num 120, "trine"); (Num 180, "opposition")] in
  match calculateAspect pos1 pos2 maxOrb with
  | Some a =>
      exists before canonical name after,
        table = (before ++ (canonical, name) :: after)%list
        /\ Forall
             (fun entry : number * string =>
                (Math.abs (angle - fst entry) <=? limit) = false)
             before
        /\ aspect_type a = name
        /\ orb a = Math.abs (angle - canonical)
        /\ (orb a <=? limit) = true
  | None =>
      Forall
        (fun entry : number * string =>
           (Math.abs (angle - fst entry) <=? limit) = false)
        table
  end.
Proof.
  intros limit angle table. rewrite calculateAspect_table.
  fold limit angle table.
  pose proof (first_aspect_spec angle
                (map (fun entry : number * string =>
                        mkAspectDef (fst entry) (snd entry) limit) table))
    as S.
  destruct (first_aspect angle _) as [a|].
  - destruct S as (before & def & after & E & B & W & Ea).
    apply map_eq_app in E. destruct E as (b' & rest & Et & Eb & Er).
    destruct rest as [|[c name] a']; [discriminate|].
    cbn [map] in Er. injection Er as Ed Ea'. subst def before.
    exists b', c, name, a'. cbn [def_angle def_type def_maxOrb fst snd] in *.
    split; [exact Et|]. split.
    + rewrite Forall_map in B. exact B.
    + subst a. cbn [aspect_type orb]. repeat split. exact W.
  - rewrite Forall_map in S. exact S.
Qed.

(** X18.  Every aspect that [calculateTransitAspects] reports pairs a
    transiting body other than "ascendant", taken from the transit
    positions, with a body of the chart, and has an orb of at most 6. *)
Theorem transit_aspects_are_within_six_degrees (birthChart : BirthChart)
  (transitPositions : list (string * PlanetaryPosition)) :
  Forall
    (fun found : TransitAspect =>
       String.eqb (transitPlanet found) "ascendant" = false
       /\ In (transitPlanet found) (map fst transitPositions)
       /\ In (natalPlanet found) (map fst (planets birthChart))
       /\ (ta_orb found <=? Num 6) = true
       /\ In (aspect found)
            ["conjunction"; "sextile"; "square"; "trine"; "opposition"])
    (calculateTransitAspects birthChart transitPositions).
Proof.
  apply Forall_forall. intros found Hin.
  unfold calculateTransitAspects in Hin.
  apply in_flat_map in Hin. destruct Hin as ([tk tp] & Ht & Hin).
  destruct (String.eqb tk "ascendant") eqn:Ea; [contradiction|].
  apply in_flat_map in Hin. destruct Hin as ([nk np] & Hn & Hin).
  rewrite calculateAspect_table in Hin.
  match type of Hin with
  | context [first_aspect ?angle ?table] =>
      pose proof (first_aspect_spec angle table) as S;
      destruct (first_aspect angle table) as [a|]; [|contradiction]
  end.
  destruct Hin as [<-|[]]. cbn [transitPlanet natalPlanet ta_orb aspect].
  destruct S as (before & def & after & Et & _ & W & ->).
  cbn [aspect_type orb].
  assert (In def
            (map (fun entry : number * string =>
                    mkAspectDef (fst entry) (snd entry) (Num 6))
               [(Num 0, "conjunction"); (Num 60, "sextile");
                (Num 90, "square"); (Num 120, "trine");
                (Num 180, "opposition")])) as I.
  { rewrite Et. apply in_or_app. right. now left. }
  split; [exact Ea|]. split; [apply (in_map fst _ _ Ht)|].
  split; [apply (in_map fst _ _ Hn)|].
  cbn [map In fst snd] in I.
  repeat (destruct I as [I|I];
          [subst def; cbn [def_angle def_type def_maxOrb] in *;
           split; [exact W|cbn [In]; tauto]|]).
  contradiction.
Qed.

End TransitAspects.

(** ** Dasha timeline *)

Section DashaTimeline.

Import DashaCalculator.
Local Open Scope string_scope.
Local Open Scope js_scope.
Local Open Scope Q_scope.

Variable addYears : Js.Date -> number -> Js.Date.
Variable addMonths : Js.Date -> number -> Js.Date.
Variable format : Js.Date -> string -> string.

Ltac eval_closed :=
  repeat match goal with
    | |- context [getNakshatraLord ?a] =>
        let v := eval vm_compute in (getNakshatraLord a) in
        change (getNakshatraLord a) with v
    | |- context [top_lord ?a ?b] =>
        let v := eval vm_compute in (top_lord a b) in
        change (top_lord a b) with v
    | |- context [sub_lord ?a ?b] =>
        let v := eval vm_compute in (sub_lord a b) in
        change (sub_lord a b) with v
    | |- context [Js.indexOf ?a ?b] =>
        let v := eval vm_compute in (Js.indexOf a b) in
        change (Js.indexOf a b) with v
    | |- context [Js.get_opt ?a ?b] =>
        let v := eval vm_compute in (Js.get_opt a b) in
        change (Js.get_opt a b) with v
    | |- context [Js.get ?a ?b] =>
        let v := eval vm_compute in (Js.get a b) in
        change (Js.get a b) with v
    | |- context [Z.to_nat ?a] =>
        let v := eval vm_compute in (Z.to_nat a) in
        change (Z.to_nat a) with v
    | |- context [Qeq_bool ?a ?b] =>
        let v := eval vm_compute in (Qeq_bool a b) in
        change (Qeq_bool a b) with v
    end.

(** X19.  For a nakshatra of 1..27 and a degree in [0, 13 1/3],
    [calculateDashaBalance] is the share [(1 - degrees / (13 1/3))] of the
    lord's full years: between 0 and the full years, which are between 6
    and 20. *)
Theorem calculateDashaBalance_bounds (k : Z) (deg : Q) :
  (1 <= k <= 27)%Z -> 0 <= deg <= 40 # 3 ->
  exists balance full : Q,
    calculateDashaBalance (of_Z k) (Num deg) = Num balance
    /\ Js.get_opt (getNakshatraLord (of_Z k)) DASHA_YEARS = Some (Num full)
    /\ balance == (1 - deg * (3 # 40)) * full
    /\ 0 <= balance <= full /\ 6 <= full <= 20.
Proof.
  intros Hk [D0 D1].
  pose proof (nakshatra_cases k Hk) as Hin. simpl in Hin.
  repeat (destruct Hin as [<- | Hin]); try contradiction.
  all: unfold calculateDashaBalance; eval_closed.
  all: eexists; eexists; split; [reflexivity|split; [reflexivity|]].
  all: split; [field|].
  all: match goal with
       | |- 0 <= ?b <= ?f /\ _ =>
           assert (b == (1 - deg * (3 # 40)) * f) as E by field;
           rewrite E; split; [split; lra|split; lra]
       end.
Qed.

(** X19 at work: nakshatra 8, 1 degree 40 minutes traversed. *)
Lemma calculateDashaBalance_bounds_witness :
  (1 <= 8 <= 27)%Z /\ 0 <= 5 # 3 <= 40 # 3
  /\ exists balance full : Q,
       calculateDashaBalance (of_Z 8) (Num (5 # 3)) = Num balance
       /\ Js.get_opt (getNakshatraLord (of_Z 8)) DASHA_YEARS
          = Some (Num full)
       /\ balance == (1 - (5 # 3) * (3 # 40)) * full
       /\ 0 <= balance <= full /\ 6 <= full <= 20.
Proof.
  split; [lia|]. split; [split; discriminate|].
  apply (calculateDashaBalance_bounds 8 (5 # 3)); [lia|split; discriminate].
Defined.

(** The lords and years of the top-level periods, turn by turn. *)
Lemma dasha_fold_lords_years (startLord : option string) (balance : number)
  (l : list Z) :
  forall d found acc,
    map (fun p => (dasha_planet p, dasha_years p))
      (snd (fold_left (dasha_step addYears addMonths format startLord balance)
              l (d, found, acc)))
    = (map (fun p => (dasha_planet p, dasha_years p)) acc
       ++ match l with
          | [] => []
          | i :: rest =>
              (top_lord startLord i, top_years startLord balance found i)
              :: map (fun i => (top_lord startLord i,
                                top_years startLord balance true i)) rest
          end)%list.
Proof.
  induction l as [|i l IH]; intros d found acc.
  - cbn [fold_left snd]. now rewrite app_nil_r.
  - cbn [fold_left]. unfold dasha_step at 2. rewrite IH, map_app.
    rewrite <- app_assoc. f_equal. destruct l; reflexivity.
Qed.

(** The lords of the sub-periods, turn by turn. *)
Lemma antar_fold_lords (startIndex years : number) (l : list Z) :
  forall (d : Js.Date) (acc : list DashaPeriod),
    map dasha_planet
      (snd (fold_left (antar_step addYears addMonths format startIndex years)
              l (d, acc)))
    = (map dasha_planet acc ++ map (sub_lord startIndex) l)%list.
Proof.
  induction l as [|i l IH]; intros d acc; simpl.
  - now rewrite app_nil_r.
  - rewrite IH, map_app. simpl. rewrite <- app_assoc. reflexivity.
Qed.


(** X20.  For a nakshatra of 1..27 the nine top-level periods are ruled by
    the nine lords in the order of the cycle, starting from the lord of the
    birth nakshatra; the first lasts the balance and each of the other
    eight the full years of its lord, so that together they last the
    balance plus 120 minus the full years of the birth lord. *)
Theorem dasha_periods_follow_the_cycle (birthDate : Js.Date) (k : Z)
  (deg : Q) :
  (1 <= k <= 27)%Z ->
  let periods :=
    calculateDashaPeriods addYears addMonths format birthDate
      (of_Z k) (Num deg) in
  let first := Z.to_nat ((k - 1) mod 9) in
  let cycle :=
    (skipn first NAKSHATRA_LORDS ++ firstn first NAKSHATRA_LORDS)%list in
  map dasha_planet periods = map Some cycle
  /\ map dasha_years periods
     = calculateDashaBalance (of_Z k) (Num deg)
       :: map (fun lord => of_undefined (Js.get lord DASHA_YEARS))
            (tl cycle)
  /\ total_years periods
     =n= calculateDashaBalance (of_Z k) (Num deg) + Num 120
         - of_undefined (Js.get_opt (getNakshatraLord (of_Z k)) DASHA_YEARS).
Proof.
  intros Hk periods first cycle. subst periods first cycle.
  assert (forall ps : list DashaPeriod,
             map dasha_planet ps
             = map fst (map (fun p => (dasha_planet p, dasha_years p)) ps)
             /\ map dasha_years ps
                = map snd (map (fun p => (dasha_planet p, dasha_years p)) ps))
    as P.
  { intros ps. rewrite !map_map. split; reflexivity. }
  rewrite total_years_map.
  rewrite (proj1 (P _)), (proj2 (P _)). clear P.
  unfold calculateDashaPeriods. rewrite dasha_fold_lords_years.
  cbn [map app nine fst snd].
  destruct (balance_finite k deg Hk) as [b Eb]. rewrite Eb.
  pose proof (nakshatra_cases k Hk) as Hin. simpl in Hin.
  repeat (destruct Hin as [<- | Hin]); try contradiction.
  all: unfold top_years; eval_closed.
  all: cbn [of_undefined skipn firstn app map tl].
  all: eval_closed.
  all: split; [reflexivity|split; [reflexivity|]].
  all: cbv [of_undefined fold_left add sub lift2 num_eq]; ring.
Qed.

Lemma contiguous_snoc (start : string) (acc : list DashaPeriod)
  (p : DashaPeriod) :
  contiguous start acc -> dasha_startDate p = chain_end start acc ->
  contiguous start (acc ++ [p])
  /\ chain_end start (acc ++ [p]) = dasha_endDate p.
Proof.
  intros C E. split.
  - revert start C E.
    induction acc as [|q acc IH]; intros start C E; cbn in *; [tauto|].
    destruct C as [C1 C2]. split; [exact C1|]. apply IH; assumption.
  - unfold chain_end. rewrite fold_left_app. reflexivity.
Qed.


Lemma antar_fold_contiguous (startIndex years : number) (start : string)
  (l : list Z) :
  forall d acc,
    contiguous start acc ->
    chain_end start acc = format d "yyyy-MM-dd" ->
    contiguous start
      (snd (fold_left (antar_step addYears addMonths format startIndex years)
              l (d, acc))).
Proof.
  induction l as [|i l IH]; intros d acc C E; [exact C|].
  cbn [fold_left]. unfold antar_step at 2.
  match goal with
  | |- context [(acc ++ [?p])%list] =>
      destruct (contiguous_snoc start acc p C (eq_sym E)) as [C' E']
  end.
  apply IH; [exact C'|]. rewrite E'. reflexivity.
Qed.


(** The first sub-period of a lord read from the cycle is that lord's own,
    also when the read gave nothing. *)
Lemma first_sub_lord (index : number) :
  sub_lord (Js.indexOf NAKSHATRA_LORDS (Js.array_get NAKSHATRA_LORDS index))
    0
  = Js.array_get NAKSHATRA_LORDS index.
Proof.
  destruct (Js.array_get NAKSHATRA_LORDS index) as [lord|] eqn:E;
    [|reflexivity].
  assert (In lord NAKSHATRA_LORDS) as Hin.
  { unfold Js.array_get in E. destruct index as [q|]; [|discriminate].
    destruct (_ && _); [|discriminate].
    apply nth_error_In in E. exact E. }
  simpl in Hin.
  repeat (destruct Hin as [<- | Hin]); try contradiction; reflexivity.
Qed.

(** X22.  Whatever the arguments, every top-level period has nine
    sub-periods that follow one another without a gap from the period's own
    start date, and the first of them is ruled by the period's own lord. *)
Theorem sub_periods_start_with_the_parent (birthDate : Js.Date)
  (nakshatra degrees : number) :
  Forall
    (fun p =>
       List.length (dasha_subPeriods p) = 9%nat
       /\ contiguous (dasha_startDate p) (dasha_subPeriods p)
       /\ option_map dasha_planet (hd_error (dasha_subPeriods p))
          = Some (dasha_planet p))
    (calculateDashaPeriods addYears addMonths format birthDate nakshatra
       degrees).
Proof.
  unfold calculateDashaPeriods.
  apply dasha_fold_Forall; [|constructor].
  intros d found i _. unfold dasha_entry.
  cbn [dasha_subPeriods dasha_startDate dasha_planet].
  set (lord := Js.array_get NAKSHATRA_LORDS _).
  set (years := if found then _ else _).
  split; [|split].
  - unfold calculateAntarDasha.
    rewrite <- (length_map dasha_years), antar_fold_years. reflexivity.
  - unfold calculateAntarDasha.
    apply antar_fold_contiguous; [exact I|reflexivity].
  - pose proof (antar_fold_lords (Js.indexOf NAKSHATRA_LORDS lord) years
                  nine d []) as M.
    fold (calculateAntarDasha addYears addMonths format lord d years) in M.
    destruct (calculateAntarDasha addYears addMonths format lord d years)
      as [|p ps]; [discriminate|].
    cbn [map app nine hd_error option_map] in *.
    injection M as M _. rewrite M. f_equal. apply first_sub_lord.
Qed.



End DashaTimeline.

(** X20 at work: nakshatra 8, Saturn first. *)
Lemma dasha_periods_follow_the_cycle_witness :
  (1 <= 8 <= 27)%Z
  /\ (let periods :=
        DashaCalculator.calculateDashaPeriods Examples.stillDate
          Examples.stillDate Examples.blankFormat Examples.noon_2000_01_01
          (of_Z 8) (Num (5 # 3)) in
      let first := Z.to_nat ((8 - 1) mod 9) in
      let cycle :=
        (skipn first DashaCalculator.NAKSHATRA_LORDS
         ++ firstn first DashaCalculator.NAKSHATRA_LORDS)%list in
      map dasha_planet periods = map Some cycle
      /\ map dasha_years periods
         = DashaCalculator.calculateDashaBalance (of_Z 8) (Num (5 # 3))
           :: map (fun lord =>
                     of_undefined (Js.get lord DashaCalculator.DASHA_YEARS))
                (tl cycle)
      /\ DashaCalculator.total_years periods
         =n= (DashaCalculator.calculateDashaBalance (of_Z 8) (Num (5 # 3))
              + Num 120
              - of_undefined
                  (Js.get_opt (DashaCalculator.getNakshatraLord (of_Z 8))
                     DashaCalculator.DASHA_YEARS))%js).
Proof.
  split; [lia|].
  apply (dasha_periods_follow_the_cycle Examples.stillDate
           Examples.stillDate Examples.blankFormat
           Examples.noon_2000_01_01 8 (5 # 3)).
  lia.
Defined.


(** ** Astronomy and houses *)

Section Normalized.

Local Open Scope string_scope.
Local Open Scope js_scope.
Local Open Scope Q_scope.



Lemma array_set_other {A : Type} (i j : nat) (v : A) :
  forall arr : list (option A),
    i <> j ->
    match nth_error (Js.array_set arr i v) j with
    | Some (Some w) => Some w
    | _ => None
    end
    = match nth_error arr j with
      | Some (Some w) => Some w
      | _ => None
      end.
Proof.
  revert j.
  induction i as [|i IH]; intros [|j] [|x arr] Hij; cbn;
    try reflexivity; try contradiction.
  - now destruct j.
  - rewrite (IH j []) by congruence. now destruct j.
  - apply IH. congruence.
Qed.

Lemma array_set_length {A : Type} (i : nat) (v : A) :
  forall arr : list (option A),
    List.length (Js.array_set arr i v) = Nat.max (List.length arr) (S i).
Proof.
  induction i as [|i IH]; intros [|x arr]; cbn; try reflexivity.
  - now destruct (List.length arr).
  - rewrite IH. reflexivity.
  - rewrite IH. reflexivity.
Qed.

(** X25.  [calculateIntermediate] writes the cusp of [houseNum] and
    nothing else: every other element of [houses] reads as before, and the
    array only grows when [houseNum] is past its end. *)
Theorem calculateIntermediate_writes_one_cusp
  (PI : number) (sin cos asin acos : number -> number)
  (RAMC obliquity latitude : number) (houses : list (option number))
  (houseNum : positive) (fraction : number) (j : nat) :
  j <> (Pos.to_nat houseNum - 1)%nat ->
  HouseCalculator.array_read
    (HouseCalculator.calculateIntermediate PI sin cos asin acos RAMC
       obliquity latitude houses houseNum fraction) j
  = HouseCalculator.array_read houses j
  /\ List.length
       (HouseCalculator.calculateIntermediate PI sin cos asin acos RAMC
          obliquity latitude houses houseNum fraction)
     = Nat.max (List.length houses) (Pos.to_nat houseNum).
Proof.
  intros Hj. unfold HouseCalculator.calculateIntermediate. split.
  - unfold HouseCalculator.array_read.
    match goal with
    | |- context [Js.array_set houses ?i ?v] =>
        pose proof (array_set_other i j v houses (not_eq_sym Hj)) as E
    end.
    destruct (nth_error (Js.array_set houses _ _) j) as [[w|]|];
      destruct (nth_error houses j) as [[w'|]|]; congruence.
  - rewrite array_set_length. f_equal. lia.
Qed.

End Normalized.

(** X25 at work: writing the cusp of house 11 into an array of twelve
    holes leaves index 9 a hole. *)
Lemma calculateIntermediate_writes_one_cusp_witness :
  9%nat <> (Pos.to_nat 11 - 1)%nat
  /\ (HouseCalculator.array_read
        (HouseCalculator.calculateIntermediate (Num 3) (fun a => a)
           (fun a => a) (fun a => a) (fun a => a) (Num 10) (Num 23)
           (Num 45) (repeat None 12) 11 (Num (1 # 3))) 9
      = HouseCalculator.array_read (repeat None 12) 9
      /\ List.length
           (HouseCalculator.calculateIntermediate (Num 3) (fun a => a)
              (fun a => a) (fun a => a) (fun a => a) (Num 10) (Num 23)
              (Num 45) (repeat None 12) 11 (Num (1 # 3)))
         = Nat.max (List.length (repeat (@None number) 12))
             (Pos.to_nat 11)).
Proof.
  split; [discriminate|].
  apply (calculateIntermediate_writes_one_cusp (Num 3) (fun a => a)
           (fun a => a) (fun a => a) (fun a => a) (Num 10) (Num 23)
           (Num 45) (repeat None 12) 11 (Num (1 # 3)) 9).
  discriminate.
Defined.

(** ** Planetary series *)

Section Geocentric.

Import PlanetaryPositions.
Local Open Scope string_scope.
Local Open Scope js_scope.

Variable PI : number.
Variables sin cos : number -> number.
Variables MERCURY VENUS MARS JUPITER SATURN : PlanetTerms.

(** X26.  [calculateHeliocentricCoordinates] returns coordinates exactly
    for mercury, venus, mars, jupiter and saturn, in any mix of upper and
    lower case, and throws for every other name, "earth" and "sun"
    included. *)
Theorem heliocentric_is_defined_for_five_planets (planet : string)
  (jd : number) :
  (In (toLowerCase planet)
     ["mercury"; "venus"; "mars"; "jupiter"; "saturn"]
   /\ exists position : Cartesian,
        calculateHeliocentricCoordinates PI sin cos MERCURY VENUS MARS
          JUPITER SATURN planet jd
        = Returned position)
  \/ (~ In (toLowerCase planet)
          ["mercury"; "venus"; "mars"; "jupiter"; "saturn"]
      /\ calculateHeliocentricCoordinates PI sin cos MERCURY VENUS MARS
           JUPITER SATURN planet jd
         = TypeError).
Proof.
  unfold calculateHeliocentricCoordinates, calculatePosition,
    getPlanetTerms.
  cbn [Js.get].
  destruct (String.eqb_spec (toLowerCase planet) "mercury") as [E|N1];
    [left; split; [rewrite E; cbn [In]; tauto|eexists; reflexivity]|].
  destruct (String.eqb_spec (toLowerCase planet) "venus") as [E|N2];
    [left; split; [rewrite E; cbn [In]; tauto|eexists; reflexivity]|].
  destruct (String.eqb_spec (toLowerCase planet) "mars") as [E|N3];
    [left; split; [rewrite E; cbn [In]; tauto|eexists; reflexivity]|].
  destruct (String.eqb_spec (toLowerCase planet) "jupiter") as [E|N4];
    [left; split; [rewrite E; cbn [In]; tauto|eexists; reflexivity]|].
  destruct (String.eqb_spec (toLowerCase planet) "saturn") as [E|N5];
    [left; split; [rewrite E; cbn [In]; tauto|eexists; reflexivity]|].
  right. split; [|reflexivity]. cbn [In]. intuition congruence.
Qed.

(** X27.  [calculateGeocentricPosition] never returns: for every planet
    name it ends with a TypeError, because the position of "earth" that it
    subtracts has no term table. *)
Theorem geocentric_position_always_throws (planet : string) (jd : number) :
  calculateGeocentricPosition PI sin cos MERCURY VENUS MARS JUPITER SATURN
    planet jd
  = TypeError.
Proof.
  unfold calculateGeocentricPosition.
  destruct (calculateHeliocentricCoordinates PI sin cos MERCURY VENUS MARS
              JUPITER SATURN planet jd) as [planetPos|];
    reflexivity.
Qed.

End Geocentric.
